(** * Nelson-rule quality-control dashboard: statistics, rule engine,
      sample editing and the Excel-backed synchronisation server.

    A shallow embedding of [src/frontend/src/App.js] (the React dashboard:
    [calcStats], [checkNelsonRules], [addSample], [updateSample],
    [deleteSample]) and of the Node backend ([readExcelFile],
    [writeExcelFile], the file watcher and the socket handlers).

    JavaScript numbers are IEEE-754 binary64 values; they are modelled by
    Rocq's primitive floats, so [NaN], the infinities, signed zeros, rounding
    and underflow behave as they do in the program. *)

From Stdlib Require Import ZArith Floats Ascii String Lia.
From Stdlib Require Uint63.
From stdpp Require Import base list strings gmap sorting.

#[local] Set Warnings "-inexact-float".
#[local] Open Scope Z_scope.

(* ===================================================================== *)
(** ** JavaScript values and the built-ins the program relies on          *)
(* ===================================================================== *)

Module JS.

(** The primitive values that reach the program: cells produced by
    [XLSX.utils.sheet_to_json], sample ids and form-field strings. *)
Inductive value : Type :=
| Undefined
| Null
| Bool (b : bool)
| Num (n : float)
| Str (s : string).

(** [ToBoolean]: the falsy values are [undefined], [null], [false],
    [+0], [-0], [NaN] and the empty string. *)
Definition num_truthy (n : float) : bool :=
  negb (PrimFloat.is_zero n || PrimFloat.is_nan n).

Definition ToBoolean (v : value) : bool :=
  match v with
  | Undefined | Null => false
  | Bool b => b
  | Num n => num_truthy n
  | Str s => negb (String.eqb s EmptyString)
  end.

(** [a || b] on values. *)
Definition or (a b : value) : value := if ToBoolean a then a else b.

(** [x || y] where both operands are numbers. *)
Definition num_or (a b : float) : float := if num_truthy a then a else b.

(** [a === b]: no coercion, [NaN] differs from itself, [+0 === -0]. *)
Definition strict_eq (a b : value) : bool :=
  match a, b with
  | Undefined, Undefined => true
  | Null, Null => true
  | Bool x, Bool y => Bool.eqb x y
  | Num x, Num y => PrimFloat.eqb x y
  | Str x, Str y => String.eqb x y
  | _, _ => false
  end.

(** [arr.length] and array indices, as numbers (exact below 2^53; a
    JavaScript array holds fewer than 2^32 elements). *)
Definition of_nat (n : nat) : float :=
  PrimFloat.of_uint63 (Uint63.of_Z (Z.of_nat n)).

(** [a > b], [a < b] and [a >= b] on numbers. *)
Definition gt (a b : float) : bool := PrimFloat.ltb b a.
Definition lt (a b : float) : bool := PrimFloat.ltb a b.
Definition ge (a b : float) : bool := PrimFloat.leb b a.

(** [Math.pow(x, 2)], taken as the correctly rounded square. *)
Definition Math_pow_2 (x : float) : float := PrimFloat.mul x x.

(** *** [parseFloat] *)

Definition code (c : ascii) : nat := nat_of_ascii c.

Definition is_digit (c : ascii) : bool :=
  (48 <=? code c)%nat && (code c <=? 57)%nat.

Definition digit_val (c : ascii) : Z := Z.of_nat (code c) - 48.

(** Leading [StrWhiteSpaceChar]s are dropped; a string is held as its
    UTF-8 bytes, so the non-ASCII white space takes two or three bytes. *)
Fixpoint trim_start (fuel : nat) (s : list ascii) : list ascii :=
  match fuel with
  | O => s
  | S fuel' =>
      match map code s with
      | (9 | 10 | 11 | 12 | 13 | 32)%nat :: _ => trim_start fuel' (drop 1 s)
      | 194%nat :: 160%nat :: _ => trim_start fuel' (drop 2 s)
      | 239%nat :: 187%nat :: 191%nat :: _ => trim_start fuel' (drop 3 s)
      | 225%nat :: 154%nat :: 128%nat :: _ => trim_start fuel' (drop 3 s)
      | 226%nat :: 128%nat :: b :: _ =>
          if ((128 <=? b)%nat && (b <=? 138)%nat)
             || (b =? 168)%nat || (b =? 169)%nat || (b =? 175)%nat
          then trim_start fuel' (drop 3 s) else s
      | 226%nat :: 129%nat :: 159%nat :: _ => trim_start fuel' (drop 3 s)
      | 227%nat :: 128%nat :: 128%nat :: _ => trim_start fuel' (drop 3 s)
      | _ => s
      end
  end.

Fixpoint span_digits (s : list ascii) : list ascii * list ascii :=
  match s with
  | c :: s' =>
      if is_digit c
      then let '(ds, rest) := span_digits s' in (c :: ds, rest)
      else ([], s)
  | [] => ([], [])
  end.

Definition digits_value (ds : list ascii) : Z :=
  foldl (fun acc c => 10 * acc + digit_val c) 0 ds.

(** The binary64 value nearest to [m * 10^e10] (ties to even), with the
    sign [neg]. For a negative exponent the quotient is taken with more
    than 64 significant bits and a sticky bit for the remainder, so the
    final rounding is the rounding of the exact quotient. *)
Definition dec_to_float (neg : bool) (m e10 : Z) : float :=
  SF2Prim
    (if m =? 0 then S754_zero neg
     else if 0 <=? e10
          then binary_normalize prec emax (cond_Zopp neg (m * 10 ^ e10)) 0 neg
          else
            let d := 10 ^ (- e10) in
            let k := Z.max 0 (Z.log2 d + 66 - Z.log2 m) in
            let q := (m * 2 ^ k) / d in
            let r := (m * 2 ^ k) mod d in
            binary_normalize prec emax
              (cond_Zopp neg (2 * q + (if r =? 0 then 0 else 1)))
              (- k - 1) neg).

Fixpoint starts_with (p s : list ascii) : bool :=
  match p, s with
  | [], _ => true
  | a :: p', b :: s' => (code a =? code b)%nat && starts_with p' s'
  | _ :: _, [] => false
  end.

(** [ExponentPart]: [e] or [E], an optional sign, at least one digit;
    without a digit the exponent is not part of the longest prefix. *)
Definition parse_exponent (s : list ascii) : Z :=
  match s with
  | c :: s' =>
      if (code c =? 101)%nat || (code c =? 69)%nat then
        let '(eneg, s'') :=
          match s' with
          | c' :: t =>
              if (code c' =? 45)%nat then (true, t)
              else if (code c' =? 43)%nat then (false, t)
              else (false, s')
          | [] => (false, s')
          end in
        let '(eds, _) := span_digits s'' in
        match eds with
        | [] => 0
        | _ => cond_Zopp eneg (digits_value eds)
        end
      else 0
  | [] => 0
  end.

(** [StrUnsignedDecimalLiteral], longest prefix; [None] when no prefix of
    the input is one. *)
Definition parse_unsigned (neg : bool) (s : list ascii) : option float :=
  if starts_with (list_ascii_of_string "Infinity") s
  then Some (if neg then neg_infinity else infinity)
  else
    let '(ip, rest) := span_digits s in
    let '(fp, rest') :=
      match rest with
      | c :: t => if (code c =? 46)%nat then span_digits t else ([], rest)
      | [] => ([], rest)
      end in
    match ip ++ fp with
    | [] => None
    | ds =>
        Some (dec_to_float neg (digits_value ds)
                (parse_exponent rest' - Z.of_nat (length fp)))
    end.

Definition parseFloat_string (str : string) : float :=
  let s := list_ascii_of_string str in
  let s := trim_start (length s) s in
  let '(neg, s) :=
    match s with
    | c :: t =>
        if (code c =? 45)%nat then (true, t)
        else if (code c =? 43)%nat then (false, t)
        else (false, s)
    | [] => (false, s)
    end in
  match parse_unsigned neg s with
  | Some n => n
  | None => nan
  end.

(** [parseFloat(v)] is [parseFloat_string (ToString v)]. For a number the
    shortest round-tripping decimal that [ToString] prints parses back to
    the same number, except that [-0] prints as ["0"]. *)
Definition parseFloat (v : value) : float :=
  match v with
  | Str s => parseFloat_string s
  | Num n => if PrimFloat.is_zero n then 0%float else n
  | Undefined | Null | Bool _ => nan
  end.

End JS.

(* ===================================================================== *)
(** ** The data model                                                     *)
(* ===================================================================== *)

(** A sample as both programs build it: [{ id, weight, hardness }]. The id
    is whatever the table held (a number or a text), or a position. *)
Record sample : Type := Sample {
  id : JS.value;
  weight : float;
  hardness : float
}.

Abbreviation series := (list sample).

(** The two measured channels; [updateSample] is only ever called with the
    field names ['weight'] and ['hardness']. *)
Inductive field : Type := Weight | Hardness.

Definition get_field (f : field) (s : sample) : float :=
  match f with
  | Weight => weight s
  | Hardness => hardness s
  end.

Definition other_field (f : field) : field :=
  match f with
  | Weight => Hardness
  | Hardness => Weight
  end.

(** [{ ...s, [field]: v }] *)
Definition set_field (f : field) (v : float) (s : sample) : sample :=
  match f with
  | Weight => {| id := id s; weight := v; hardness := hardness s |}
  | Hardness => {| id := id s; weight := weight s; hardness := v |}
  end.

(** The dummy data both programs fall back to. *)
Definition dummy_data : series :=
  [ Sample (JS.Num 1) 27.2 10.1;
    Sample (JS.Num 2) 26.8 9.8;
    Sample (JS.Num 3) 27.5 10.3;
    Sample (JS.Num 4) 26.5 9.5;
    Sample (JS.Num 5) 27.8 10.8 ]%float.

(* ===================================================================== *)
(** ** Frontend: editing the sample table                                 *)
(* ===================================================================== *)

Module Editor.

(** [addSample]: a zero sample whose id is [samples.length + 1]. *)
Definition addSample (samples : series) : series :=
  samples ++ [ Sample (JS.Num (JS.of_nat (length samples + 1))) 0 0 ].

(** [updateSample(id, field, value)]: [value] is the text of the input
    box. *)
Definition updateSample (samples : series)
    (i : JS.value) (f : field) (value : string) : series :=
  map (fun s =>
         if JS.strict_eq (id s) i
         then set_field f (JS.num_or (JS.parseFloat (JS.Str value)) 0) s
         else s)
      samples.

(** [deleteSample(id)]: [samples.filter(s => s.id !== id)]. *)
Definition deleteSample (samples : series) (i : JS.value) : series :=
  List.filter (fun s => negb (JS.strict_eq (id s) i)) samples.

End Editor.

(* ===================================================================== *)
(** ** Frontend: channel statistics                                       *)
(* ===================================================================== *)

Module Stats.

Record stats : Type := MkStats { avg : float; sd : float; rsd : float }.

(** [calcStats]: both [reduce] calls are left folds that start from 0. *)
Definition calcStats (arr : list float) : stats :=
  let n := JS.of_nat (length arr) in
  let avg := (foldl (fun a b => a + b) 0 arr / n)%float in
  let sd :=
    PrimFloat.sqrt
      (foldl (fun sum val => sum + JS.Math_pow_2 (val - avg)) 0 arr / n)%float in
  let rsd := ((sd / avg) * 100)%float in
  {| avg := avg; sd := sd; rsd := rsd |}.

End Stats.

(* ===================================================================== *)
(** ** Frontend: the Nelson rule engine                                   *)
(* ===================================================================== *)

Module Nelson.

(** The [violations] array: one list of rule numbers per data point. *)
Abbreviation violations := (list (list nat)).

(** [violations[i].push(r)] *)
Definition push_at (i r : nat) (v : violations) : violations :=
  alter (fun l => l ++ [r]) i v.

(** [for (let i = start; i < stop; i++) body] over a threaded state. *)
Definition for_range {S : Type} (start stop : nat)
    (body : nat -> S -> S) (s : S) : S :=
  foldl (fun acc i => body i acc) s (seq start (stop - start)).

(** [data.slice(from, to)] for the non-negative bounds the rules use. *)
Definition slice (from to : nat) (data : list float) : list float :=
  take (to - from) (drop from data).

(** [arr[j]]: reading past the end gives [undefined], which compares and
    computes as [NaN]. *)
Definition at_index (arr : list float) (j : nat) : float :=
  default nan (arr !! j).

(** [arr.every((v, j) => p(v, j))] *)
Definition every_i (p : float -> nat -> bool) (arr : list float) : bool :=
  forallb (fun b : bool => b) (imap (fun j v => p v j) arr).

Definition every (p : float -> bool) (arr : list float) : bool :=
  forallb p arr.

(** [arr.filter(p).length] *)
Definition count (p : float -> bool) (arr : list float) : nat :=
  length (List.filter p arr).

(** Rule 1: [Math.abs(val - mean) > 3 * sd]. *)
Definition rule1_test (mean sd val : float) : bool :=
  JS.gt (PrimFloat.abs (val - mean)) (3 * sd).

Definition rule2_test (mean : float) (sl : list float) : bool :=
  every (fun v => JS.gt v mean) sl || every (fun v => JS.lt v mean) sl.

Definition rule3_test (sl : list float) : bool :=
  let increasing :=
    every_i (fun v j => (j =? 0)%nat || JS.gt v (at_index sl (j - 1))) sl in
  let decreasing :=
    every_i (fun v j => (j =? 0)%nat || JS.lt v (at_index sl (j - 1))) sl in
  increasing || decreasing.

(** The inner loop of rule 4, [j] running over [js]: the first step whose
    product of changes is [>= 0] clears [alternating] and breaks. *)
Fixpoint rule4_loop (sl : list float) (js : list nat) (alternating : bool)
    : bool :=
  match js with
  | [] => alternating
  | j :: js' =>
      let currChange := (at_index sl j - at_index sl (j - 1))%float in
      let prevChange := (at_index sl (j - 1) - at_index sl (j - 2))%float in
      if JS.ge (currChange * prevChange) 0
      then false
      else rule4_loop sl js' alternating
  end.

Definition rule4_test (sl : list float) : bool :=
  rule4_loop sl (seq 2 (length sl - 2)) true.

Definition rule5_test (mean sd : float) (sl : list float) : bool :=
  (2 <=? count (fun v => JS.gt (PrimFloat.abs (v - mean)) (2 * sd)) sl)%nat.

Definition rule6_test (mean sd : float) (sl : list float) : bool :=
  (4 <=? count (fun v => JS.gt (PrimFloat.abs (v - mean)) sd) sl)%nat.

Definition rule7_test (mean sd : float) (sl : list float) : bool :=
  every (fun v => JS.lt (PrimFloat.abs (v - mean)) sd) sl.

Definition rule8_test (mean sd : float) (sl : list float) : bool :=
  every (fun v => JS.gt (PrimFloat.abs (v - mean)) sd) sl.

(** [checkNelsonRules(data, mean, sd)]: the eight passes over the shared
    [violations] array, in the order of the source. *)
Definition checkNelsonRules (data : list float) (mean sd : float)
    : violations :=
  let n := length data in
  let v : violations := replicate n [] in
  (* Rule 1: data.forEach((val, idx) => ...) *)
  let v :=
    foldl (fun acc '(idx, val) =>
             if rule1_test mean sd val then push_at idx 1 acc else acc)
          v (imap pair data) in
  (* Rule 2 *)
  let v :=
    for_range 8 n (fun i acc =>
      if rule2_test mean (slice (i - 8) (i + 1) data)
      then push_at i 2 acc else acc) v in
  (* Rule 3 *)
  let v :=
    for_range 5 n (fun i acc =>
      if rule3_test (slice (i - 5) (i + 1) data)
      then push_at i 3 acc else acc) v in
  (* Rule 4 *)
  let v :=
    if (14 <=? n)%nat then
      for_range 13 n (fun i acc =>
        if rule4_test (slice (i - 13) (i + 1) data)
        then push_at i 4 acc else acc) v
    else v in
  (* Rule 5 *)
  let v :=
    for_range 2 n (fun i acc =>
      if rule5_test mean sd (slice (i - 2) (i + 1) data)
      then push_at i 5 acc else acc) v in
  (* Rule 6 *)
  let v :=
    for_range 4 n (fun i acc =>
      if rule6_test mean sd (slice (i - 4) (i + 1) data)
      then push_at i 6 acc else acc) v in
  (* Rule 7 *)
  let v :=
    for_range 14 n (fun i acc =>
      if rule7_test mean sd (slice (i - 14) (i + 1) data)
      then push_at i 7 acc else acc) v in
  (* Rule 8 *)
  let v :=
    for_range 7 n (fun i acc =>
      if rule8_test mean sd (slice (i - 7) (i + 1) data)
      then push_at i 8 acc else acc) v in
  v.

(** Rule 4 in the words of its description, "14 points alternating up
    and down": the sign of each change is strictly opposite to the sign of
    the change before it. *)
Definition opposite_signs (c p : float) : bool :=
  (JS.lt c 0 && JS.gt p 0) || (JS.gt c 0 && JS.lt p 0).

Definition changes_alternate (sl : list float) : bool :=
  forallb (fun j =>
             opposite_signs (at_index sl j - at_index sl (j - 1))
                            (at_index sl (j - 1) - at_index sl (j - 2)))
          (seq 2 (length sl - 2)).

(** The smallest window of each rule, the current point included. *)
Definition min_window (r : nat) : nat :=
  match r with
  | 1 => 1 | 2 => 9 | 3 => 6 | 4 => 14 | 5 => 3 | 6 => 5 | 7 => 15 | 8 => 8
  | _ => 0
  end%nat.

(** The test that decides rule [r] at index [i]: the lower bound of the
    rule's loop and the test of its body. *)
Definition rule_holds (data : list float) (mean sd : float) (i r : nat)
    : bool :=
  match r with
  | 1 => rule1_test mean sd (at_index data i)
  | 2 => (8 <=? i) && rule2_test mean (slice (i - 8) (i + 1) data)
  | 3 => (5 <=? i) && rule3_test (slice (i - 5) (i + 1) data)
  | 4 => (13 <=? i) && rule4_test (slice (i - 13) (i + 1) data)
  | 5 => (2 <=? i) && rule5_test mean sd (slice (i - 2) (i + 1) data)
  | 6 => (4 <=? i) && rule6_test mean sd (slice (i - 4) (i + 1) data)
  | 7 => (14 <=? i) && rule7_test mean sd (slice (i - 14) (i + 1) data)
  | 8 => (7 <=? i) && rule8_test mean sd (slice (i - 7) (i + 1) data)
  | _ => false
  end%nat.

(** Whether rule [r] is listed at index [i] of the result. *)
Definition flagged (data : list float) (mean sd : float) (i r : nat) : Prop :=
  exists vs, checkNelsonRules data mean sd !! i = Some vs /\ r ∈ vs.

End Nelson.

(* ===================================================================== *)
(** ** Backend: the Excel file and the socket server                      *)
(* ===================================================================== *)

Module Backend.

(** A computation that returns or throws. *)
Inductive outcome (A : Type) : Type :=
| Returns (a : A)
| Throws (message : string).
Arguments Returns {A} a.
Arguments Throws {A} message.

Definition bind {A B : Type} (c : outcome A) (k : A -> outcome B)
    : outcome B :=
  match c with
  | Returns a => k a
  | Throws m => Throws m
  end.

(** [try { body } catch (error) { handler }] *)
Definition try_catch {A : Type} (body : outcome A)
    (handler : string -> outcome A) : outcome A :=
  match body with
  | Returns a => Returns a
  | Throws m => handler m
  end.

#[global] Instance outcome_ret : MRet outcome := fun A a => Returns a.
#[global] Instance outcome_bind : MBind outcome := fun A B k c => bind c k.

(** One row object of [XLSX.utils.sheet_to_json]: column header to cell;
    an empty cell has no key. *)
Abbreviation row := (gmap string JS.value).

(** [row.key] *)
Definition prop (r : row) (key : string) : JS.value :=
  default JS.Undefined (r !! key).

(** What is found at [EXCEL_FILE_PATH]. *)
Inductive backing_file : Type :=
| Missing
| Unreadable (why : string)
| Workbook (sheets : list (string * list row)).

Definition existsSync (f : backing_file) : bool :=
  match f with
  | Missing => false
  | _ => true
  end.

Definition XLSX_readFile (f : backing_file)
    : outcome (list (string * list row)) :=
  match f with
  | Workbook sheets => Returns sheets
  | Unreadable why => Throws why
  | Missing => Throws "ENOENT"
  end.

(** [sheet_to_json(workbook.Sheets[workbook.SheetNames[0]])]; a workbook
    without sheets gives no rows. *)
Definition first_sheet_json (sheets : list (string * list row)) : list row :=
  match sheets with
  | (_, rows) :: _ => rows
  | [] => []
  end.

(** The row transformation inside [readExcelFile]. *)
Definition transform (index : nat) (r : row) : sample :=
  {| id := JS.or (prop r "id") (JS.Num (JS.of_nat index + 1)%float);
     weight :=
       JS.parseFloat
         (JS.or (JS.or (prop r "weight") (prop r "Weight")) (JS.Num 0));
     hardness :=
       JS.parseFloat
         (JS.or (JS.or (prop r "hardness") (prop r "Hardness")) (JS.Num 0))
  |}.

Definition readExcelFile (f : backing_file) : outcome series :=
  try_catch
    (if negb (existsSync f) then Returns dummy_data
     else
       sheets ← XLSX_readFile f;
       let jsonData := first_sheet_json sheets in
       Returns (imap transform jsonData))
    (fun _ => Returns dummy_data).

(** The row [json_to_sheet] writes for a sample. *)
Definition row_of_sample (s : sample) : row :=
  let cells : row :=
    <["weight" := JS.Num (weight s)]>
      (<["hardness" := JS.Num (hardness s)]> ∅) in
  match id s with
  | JS.Undefined | JS.Null => cells
  | v => <["id" := v]> cells
  end.

(** [writeExcelFile(data)]: the write either succeeds and replaces the
    file, or fails, which is caught and logged. *)
Definition writeExcelFile (succeeds : bool) (data : series)
    (f : backing_file) : backing_file :=
  if succeeds then Workbook [("QC Data"%string, map row_of_sample data)]
  else f.

(** The server process: the global [currentData], the file, whether the
    watcher was installed at startup, and the connected sockets. *)
Record server : Type := Server {
  currentData : series;
  file : backing_file;
  watching : bool;
  sockets : gset string
}.

(** A ['data-update'] message delivered to one socket. *)
Abbreviation delivery := (string * series)%type.

(** [io.emit('data-update', d)] *)
Definition io_emit (sv : server) (d : series) : list delivery :=
  map (fun c => (c, d)) (elements (sockets sv)).

(** [socket.broadcast.emit('data-update', d)] *)
Definition broadcast_emit (sv : server) (sender : string) (d : series)
    : list delivery :=
  map (fun c => (c, d)) (elements (sockets sv ∖ {[sender]})).

(** [socket.emit('data-update', d)] *)
Definition socket_emit (socket : string) (d : series) : list delivery :=
  [(socket, d)].

(** Startup: the watcher is installed only if the file exists, then
    [currentData = readExcelFile()]. *)
Definition startup (f : backing_file) : outcome server :=
  d ← readExcelFile f;
  Returns {| currentData := d; file := f;
             watching := existsSync f; sockets := ∅ |}.

Inductive event : Type :=
| Connection (socket : string)
| UpdateData (socket : string) (newData : series) (write_succeeds : bool)
| Disconnect (socket : string)
| FileChanged (contents : backing_file)
| PostData (body : series) (write_succeeds : bool).

(** One event handler run to completion: the new server state and the
    messages it sent. *)
Definition handle (e : event) (sv : server)
    : outcome (server * list delivery) :=
  match e with
  | Connection socket =>
      let sv' := {| currentData := currentData sv; file := file sv;
                    watching := watching sv;
                    sockets := {[socket]} ∪ sockets sv |} in
      Returns (sv', socket_emit socket (currentData sv))
  | UpdateData socket newData ok =>
      let sv' := {| currentData := newData;
                    file := writeExcelFile ok newData (file sv);
                    watching := watching sv; sockets := sockets sv |} in
      Returns (sv', broadcast_emit sv' socket newData)
  | Disconnect socket =>
      Returns ({| currentData := currentData sv; file := file sv;
                  watching := watching sv;
                  sockets := sockets sv ∖ {[socket]} |}, [])
  | FileChanged contents =>
      if watching sv then
        newData ← readExcelFile contents;
        let sv' := {| currentData := newData; file := contents;
                      watching := true; sockets := sockets sv |} in
        Returns (sv', io_emit sv' newData)
      else
        Returns ({| currentData := currentData sv; file := contents;
                    watching := false; sockets := sockets sv |}, [])
  | PostData body ok =>
      let sv' := {| currentData := body;
                    file := writeExcelFile ok body (file sv);
                    watching := watching sv; sockets := sockets sv |} in
      Returns (sv', io_emit sv' body)
  end.

(** The messages of a run that were delivered to one socket. *)
Definition received (socket : string) (out : list delivery) : list series :=
  map snd (List.filter (fun m => String.eqb (fst m) socket) out).

End Backend.

(* ===================================================================== *)
(** ** Frontend: the data handed to the charts and the table              *)
(* ===================================================================== *)

Module Chart.

Import Backend.

(** [ruleDescriptions] *)
Definition ruleDescriptions : gmap nat string :=
  list_to_map
    [ (1%nat, "1 point beyond 3σ from mean");
      (2%nat, "9 consecutive points on same side of mean");
      (3%nat, "6 consecutive points increasing or decreasing");
      (4%nat, "14 points alternating up and down");
      (5%nat, "2 out of 3 points beyond 2σ from mean");
      (6%nat, "4 out of 5 points beyond 1σ from mean");
      (7%nat, "15 consecutive points within 1σ of mean (low variation)");
      (8%nat, "8 consecutive points beyond 1σ on either side of mean") ]%string.

(** [weightViolations] and [hardnessViolations]: the rule engine run on
    each channel with that channel's own statistics. *)
Definition weightViolations (samples : series) : Nelson.violations :=
  let weights := map weight samples in
  Nelson.checkNelsonRules weights
    (Stats.avg (Stats.calcStats weights)) (Stats.sd (Stats.calcStats weights)).

Definition hardnessViolations (samples : series) : Nelson.violations :=
  let hardnesses := map hardness samples in
  Nelson.checkNelsonRules hardnesses
    (Stats.avg (Stats.calcStats hardnesses))
    (Stats.sd (Stats.calcStats hardnesses)).

(** One element of [chartData]. A description is [None] where
    [ruleDescriptions[rule]] would be [undefined]. *)
Record chart_point : Type := ChartPoint {
  point_sample : sample;
  point_weightViolations : list nat;
  point_hardnessViolations : list nat;
  weightHasViolation : bool;
  hardnessHasViolation : bool;
  weightViolationDescriptions : list (option string);
  hardnessViolationDescriptions : list (option string)
}.

(** The callback of [samples.map] in [chartData]: reading [.length] of a
    missing entry of a violations array throws a [TypeError]. *)
Definition chart_entry (wv hv : Nelson.violations) (index : nat) (s : sample)
    : outcome chart_point :=
  match wv !! index, hv !! index with
  | Some w, Some h =>
      Returns {| point_sample := s;
                 point_weightViolations := w;
                 point_hardnessViolations := h;
                 weightHasViolation := (0 <? length w)%nat;
                 hardnessHasViolation := (0 <? length h)%nat;
                 weightViolationDescriptions :=
                   map (fun rule => ruleDescriptions !! rule) w;
                 hardnessViolationDescriptions :=
                   map (fun rule => ruleDescriptions !! rule) h |}
  | _, _ => Throws "TypeError"
  end.

(** [arr.map(f)] for a callback that may throw: the first throw ends it. *)
Fixpoint map_throwing {A B : Type} (f : nat -> A -> outcome B)
    (index : nat) (l : list A) : outcome (list B) :=
  match l with
  | [] => Returns []
  | x :: l' =>
      y ← f index x;
      ys ← map_throwing f (S index) l';
      Returns (y :: ys)
  end.

Definition chartData (samples : series) : outcome (list chart_point) :=
  map_throwing
    (chart_entry (weightViolations samples) (hardnessViolations samples))
    0%nat samples.

(** The condition of the yellow banner:
    [weightViolations.some(v => v.length > 0) || hardnessViolations.some(...)]. *)
Definition banner_shown (samples : series) : bool :=
  existsb (fun v => (0 <? length v)%nat) (weightViolations samples)
  || existsb (fun v => (0 <? length v)%nat) (hardnessViolations samples).

End Chart.

(* ===================================================================== *)
(** ** Backend: runs of the server                                        *)
(* ===================================================================== *)

Module Session.

Import Backend.

(** The handlers run one after the other, in arrival order; the messages of
    the whole run are collected in sending order. *)
Fixpoint run (events : list event) (sv : server)
    : outcome (server * list delivery) :=
  match events with
  | [] => Returns (sv, [])
  | e :: events' =>
      first ← handle e sv;
      rest ← run events' (fst first);
      Returns (fst rest, snd first ++ snd rest)
  end.

(** The series a viewer shows: the last ['data-update'] it received. *)
Definition shown (socket : string) (out : list delivery) : option series :=
  last (received socket out).

(** The editor whose own update is the newest thing the server holds: the
    sender of an ['update-data'] that no later message to everybody (a
    watched file change, a REST post) or reconnection has overtaken. *)
Definition unsent_after (watched : bool) (author : option string) (e : event)
    : option string :=
  match e with
  | UpdateData socket _ _ => Some socket
  | Connection socket =>
      match author with
      | Some a => if String.eqb a socket then None else author
      | None => None
      end
  | Disconnect _ => author
  | FileChanged _ => if watched then None else author
  | PostData _ _ => None
  end.

Definition is_file_change (e : event) : bool :=
  match e with
  | FileChanged _ => true
  | _ => false
  end.

End Session.

(* ===================================================================== *)
(** ** Inputs used in the examples                                        *)
(* ===================================================================== *)

Module Inputs.

(** Fourteen readings that overflowed to [Infinity], as [parseFloat] gives
    for a text such as [1e999]. *)
Definition all_infinite : list float := replicate 14 infinity.

(** Fourteen readings that go up and down by [1e-200]. *)
Definition tiny_zigzag : list float :=
  [0; 1e-200; 0; 1e-200; 0; 1e-200; 0; 1e-200; 0; 1e-200; 0; 1e-200;
   0; 1e-200]%float.

(** Fourteen finite readings that repeat every second one: 1e308, then
    twice -1e308, twice 1e308, and so on. The changes are 0 at every
    second step and overflow to an infinity at the others. *)
Definition huge_ties : list float :=
  [1e308; -1e308; -1e308; 1e308; 1e308; -1e308; -1e308; 1e308; 1e308;
   -1e308; -1e308; 1e308; 1e308; -1e308]%float.

(** Nine readings of 10 and one of 500: the mean is 59, the standard
    deviation 147, and the last reading lies exactly three standard
    deviations above the mean. *)
Definition threshold_series : list float :=
  [10; 10; 10; 10; 10; 10; 10; 10; 10; 500]%float.

(** The alternating series of the rule 4 example. *)
Definition zigzag : list float :=
  [1; 5; 1; 5; 1; 5; 1; 5; 1; 5; 1; 5; 1; 5]%float.

(** A sheet row whose headers are in capitals. *)
Definition capitals_row : Backend.row :=
  <["WEIGHT" := JS.Num 27.2]> (<["HARDNESS" := JS.Num 10.1]> ∅).

(** A row with the capitalised headers, a text id and no hardness. *)
Definition capitalised_row : Backend.row :=
  <["Weight" := JS.Num 26.8]> (<["id" := JS.Str "A7"]> ∅).

(** A row whose weight cell holds a text that is not a number. *)
Definition text_row : Backend.row :=
  <["weight" := JS.Str "abc"]> (<["hardness" := JS.Str "9.8 N"]> ∅).

(** A running server with three viewers connected. *)
Definition three_viewers : Backend.server :=
  {| Backend.currentData := dummy_data;
     Backend.file := Backend.Workbook [];
     Backend.watching := true;
     Backend.sockets := {["e1"; "e2"; "e3"]}%string |}.

Definition series_A : series := [Sample (JS.Num 1) 1 1].
Definition series_B : series := [Sample (JS.Num 1) 2 2].

(** A sheet row whose id cell holds 0. *)
Definition zero_id_row : Backend.row :=
  <["id" := JS.Num 0]> (<["weight" := JS.Num 27.2]> ∅).

(** A session: two viewers connect, the first edits, the file changes on
    disk, the first leaves, the second edits. *)
Definition session : list Backend.event :=
  [ Backend.Connection "e1"; Backend.Connection "e2";
    Backend.UpdateData "e1" [Sample (JS.Num 1) 1 1] true;
    Backend.FileChanged (Backend.Workbook []);
    Backend.Disconnect "e1";
    Backend.UpdateData "e2" [Sample (JS.Num 1) 2 2] false ]%string.

(** The server right after a start without a file. *)
Definition fresh_server : Backend.server :=
  {| Backend.currentData := dummy_data;
     Backend.file := Backend.Missing;
     Backend.watching := false;
     Backend.sockets := ∅ |}.

(** A table in which one weight overflowed to [Infinity]. *)
Definition overflowed_table : series :=
  [ Sample (JS.Num 1) 27.2 10.1; Sample (JS.Num 2) infinity 9.8;
    Sample (JS.Num 3) 27.5 10.3 ]%float.

(** Fifteen identical readings, judged against mean 5 and deviation 1. *)
Definition steady : list float := replicate 15 5%float.

Definition with_stats (data : list float) : Nelson.violations :=
  Nelson.checkNelsonRules data (Stats.avg (Stats.calcStats data))
                               (Stats.sd (Stats.calcStats data)).

End Inputs.

(* ===================================================================== *)
(** ** Facts about binary64 comparisons and products                      *)
(* ===================================================================== *)

Section FloatFacts.

Implicit Types x y : float.
Implicit Types X Y : spec_float.

Lemma SFcompare_refl X : X <> S754_nan -> SFcompare X X = Some Eq.
Proof.
  destruct X as [s| s | |s m e]; simpl; try congruence; intros _.
  - by destruct s.
  - destruct s; rewrite Z.compare_refl, Pos.compare_cont_refl; done.
Qed.

Lemma SFeqb_self_false X : SFeqb X X = false <-> X = S754_nan.
Proof.
  split; [|by intros ->].
  intros H. destruct X as [s| s | |s m e]; try done; exfalso;
    unfold SFeqb in H; rewrite SFcompare_refl in H; done.
Qed.

Lemma is_nan_SF x : is_nan x = true <-> Prim2SF x = S754_nan.
Proof.
  unfold is_nan. rewrite FloatAxioms.eqb_spec, negb_true_iff. apply SFeqb_self_false.
Qed.

Lemma is_nan_false_SF x : is_nan x = false <-> Prim2SF x <> S754_nan.
Proof.
  rewrite <- is_nan_SF. destruct (is_nan x); split; congruence.
Qed.

Lemma Prim2SF_zero : Prim2SF 0 = S754_zero false.
Proof. reflexivity. Qed.

Lemma is_zero_SF x : is_zero x = true <-> exists s, Prim2SF x = S754_zero s.
Proof.
  unfold is_zero, PrimFloat.zero. rewrite FloatAxioms.eqb_spec, Prim2SF_zero.
  destruct (Prim2SF x) as [s| s | |s m e]; unfold SFeqb; simpl.
  - split; eauto.
  - split; [by destruct s|]. by intros [? ?].
  - split; [done|]. by intros [? ?].
  - split; [by destruct s|]. by intros [? ?].
Qed.

Lemma SFcompare_antisym X Y :
  SFcompare Y X = option_map CompOpp (SFcompare X Y).
Proof.
  destruct X as [s| s | |s m e], Y as [s'| s' | |s' m' e']; simpl;
    try done; try (by destruct s); try (by destruct s');
    try (by destruct s, s').
  assert (Hm : Pos.compare_cont Eq m' m = CompOpp (Pos.compare_cont Eq m m'))
    by (symmetry; apply (Pos.compare_cont_antisym m m' Eq)).
  rewrite (Z.compare_antisym e e'), Hm.
  by destruct s, s', (e ?= e'), (Pos.compare_cont Eq m m').
Qed.

(** IEEE equality excludes the strict order. *)
Lemma eqb_not_ltb x y : (x =? y)%float = true -> (y <? x)%float = false.
Proof.
  rewrite FloatAxioms.eqb_spec, FloatAxioms.ltb_spec. unfold SFeqb, SFltb.
  rewrite (SFcompare_antisym (Prim2SF x) (Prim2SF y)).
  by destruct (SFcompare (Prim2SF x) (Prim2SF y)) as [[]|].
Qed.

Lemma binary_round_aux_cases s m e l :
  let R := binary_round_aux prec emax s m e l in
  R = S754_zero s \/ (exists m' e', R = S754_finite s m' e')
  \/ R = S754_infinity s \/ R = S754_nan.
Proof.
  unfold binary_round_aux.
  destruct (shr_fexp prec emax m e l) as [mrs' e'].
  destruct (shr_fexp prec emax _ e' loc_Exact) as [mrs'' e''].
  destruct (shr_m mrs''); [by left| |by repeat right].
  destruct (Z.leb e'' _); [right; left; eauto | right; right; by left].
Qed.

(** What a spec-level float can be. *)
Lemma mul_cases x y :
  let R := Prim2SF (x * y) in
  match Prim2SF x, Prim2SF y with
  | S754_finite sx _ _, S754_finite sy _ _ =>
      R = S754_zero (xorb sx sy) \/ (exists m e, R = S754_finite (xorb sx sy) m e)
      \/ R = S754_infinity (xorb sx sy) \/ R = S754_nan
  | X, Y => R = SFmul prec emax X Y
  end.
Proof.
  simpl. rewrite mul_spec. unfold SF64mul.
  destruct (Prim2SF x) as [s| s | |s m e], (Prim2SF y) as [s'| s' | |s' m' e'];
    try reflexivity.
  apply binary_round_aux_cases.
Qed.

(** The test of rule 4 on one step: [currChange * prevChange >= 0] fails
    exactly when the product is NaN, or the changes have opposite signs
    and their product did not underflow to zero. *)
Lemma rule4_step_iff (c p : float) :
  JS.ge (c * p) 0 = false <->
  (Nelson.opposite_signs c p && negb (is_zero (c * p))) || is_nan (c * p) = true.
Proof.
  unfold Nelson.opposite_signs, JS.ge, JS.lt, JS.gt, is_zero, is_nan, PrimFloat.zero.
  rewrite !FloatAxioms.eqb_spec, !FloatAxioms.ltb_spec, FloatAxioms.leb_spec, Prim2SF_zero.
  pose proof (mul_cases c p) as H. simpl in H.
  destruct (Prim2SF c) as [s| s | |s m e], (Prim2SF p) as [s'| s' | |s' m' e'];
    try (rewrite H; by destruct s, s'); try (rewrite H; by destruct s);
    try (rewrite H; by destruct s'); try (by rewrite H).
  destruct H as [-> | [(m2 & e2 & ->) | [-> | ->]]].
  - by destruct s, s'.
  - unfold SFeqb at 2. rewrite SFcompare_refl by done.
    by destruct s, s'.
  - by destruct s, s'.
  - by destruct s, s'.
Qed.

(** Dividing by a zero mean: [(sd / 0) * 100] is NaN when [sd] is zero or
    NaN and an infinity otherwise. *)
Lemma rsd_zero_mean (sd avg : float) :
  is_zero avg = true ->
  if is_zero sd || is_nan sd
  then is_nan (sd / avg * 100) = true
  else is_infinity (sd / avg * 100) = true.
Proof.
  intros [sa Ha]%is_zero_SF.
  destruct (is_zero sd) eqn:Hz; simpl.
  - apply is_zero_SF in Hz as [ss Hs]. apply is_nan_SF.
    by rewrite mul_spec, div_spec, Hs, Ha.
  - destruct (is_nan sd) eqn:Hn.
    + apply is_nan_SF in Hn. apply is_nan_SF.
      by rewrite mul_spec, div_spec, Hn.
    + unfold is_infinity. rewrite FloatAxioms.eqb_spec, abs_spec, mul_spec, div_spec, Ha.
      apply is_nan_false_SF in Hn.
      destruct (Prim2SF sd) as [s| s | |s m e] eqn:Hs; try done;
        try (by destruct s, sa).
      exfalso. assert (is_zero sd = true) by (apply is_zero_SF; eauto).
      congruence.
Qed.

(** [x || 0] on a number: NaN and the zeros give 0, anything else is kept. *)
Lemma num_or_zero (x : float) :
  (is_nan x = true -> JS.num_or x 0 = 0%float)
  /\ (is_nan x = false -> (JS.num_or x 0 =? x)%float = true)
  /\ (JS.num_truthy x = true -> JS.num_or x 0 = x).
Proof.
  unfold JS.num_or, JS.num_truthy. repeat split.
  - intros ->. by rewrite orb_true_r.
  - intros Hn. rewrite Hn, orb_false_r.
    destruct (is_zero x) eqn:Hz; simpl.
    + apply is_zero_SF in Hz as [s Hs].
      rewrite FloatAxioms.eqb_spec, Hs. reflexivity.
    + unfold is_nan in Hn. by apply negb_false_iff in Hn.
  - by intros ->.
Qed.

End FloatFacts.

(* ===================================================================== *)
(** ** The rule engine: one pass per rule over the shared array           *)
(* ===================================================================== *)

Section RuleEngine.

Import Nelson.
#[local] Open Scope nat_scope.

Implicit Types (data : list float) (mean sd : float) (v : violations).
Implicit Types (i k r : nat).

Lemma push_at_lookup i r v k :
  push_at i r v !! k
  = (fun l => if bool_decide (k = i) then l ++ [r] else l) <$> v !! k.
Proof.
  unfold push_at. destruct (decide (k = i)) as [->|Hne].
  - rewrite list_lookup_alter_eq, bool_decide_eq_true_2 by done. done.
  - rewrite list_lookup_alter_ne, bool_decide_eq_false_2 by done.
    by destruct (v !! k).
Qed.

(** A counting loop that pushes [r] at the indices passing [P]. *)
Lemma fold_push_lookup (P : nat -> bool) r n : forall a v k,
  foldl (fun acc i => if P i then push_at i r acc else acc) v (seq a n) !! k
  = (fun l => if bool_decide (a <= k < a + n) && P k then l ++ [r] else l)
      <$> v !! k.
Proof.
  induction n as [|n IH]; intros a v k; simpl.
  - destruct (v !! k); simpl; [|done]. case_bool_decide; [lia|done].
  - rewrite IH. destruct (decide (k = a)) as [->|Hne];
      destruct (P a) eqn:HP; rewrite ?push_at_lookup;
      (destruct (v !! _) as [l|]; simpl; [|done]); f_equal;
      repeat case_bool_decide; simpl; rewrite ?HP; try done; lia.
Qed.

Lemma for_range_push_lookup (P : nat -> bool) r a b v k :
  for_range a b (fun i acc => if P i then push_at i r acc else acc) v !! k
  = (fun l => if bool_decide (a <= k < b) && P k then l ++ [r] else l)
      <$> v !! k.
Proof.
  unfold for_range. rewrite fold_push_lookup.
  destruct (v !! k) as [l|]; [simpl|done]. f_equal.
  repeat case_bool_decide; try done; lia.
Qed.

(** The [forEach] pass of rule 1. *)
Lemma forEach_push_lookup (Q : float -> bool) r data : forall o v k,
  foldl (fun acc '(idx, val) => if Q val then push_at idx r acc else acc)
        v (imap (fun j x => (o + j, x)) data) !! k
  = (fun l =>
       if bool_decide (o <= k < o + length data) && Q (at_index data (k - o))
       then l ++ [r] else l) <$> v !! k.
Proof.
  induction data as [|x data IH]; intros o v k; simpl.
  - destruct (v !! k); simpl; [|done]. case_bool_decide; [lia|done].
  - rewrite (imap_ext _ (fun j y => (S o + j, y))) by (intros; simpl; f_equal; lia).
    rewrite IH. replace (o + 0) with o by lia.
    assert (Hat : o < k -> at_index (x :: data) (k - o) = at_index data (k - S o)).
    { intros. replace (k - o) with (S (k - S o)) by lia. done. }
    assert (Hx : at_index (x :: data) (o - o) = x) by (by rewrite Nat.sub_diag).
    destruct (decide (k = o)) as [->|Hne];
      destruct (Q x) eqn:HQ; rewrite ?push_at_lookup;
      (destruct (v !! _) as [l|]; simpl; [|done]); f_equal;
      repeat case_bool_decide; simpl;
      rewrite ?Hx, ?HQ; try (rewrite Hat by lia); try done; lia.
Qed.

Lemma bool_decide_range a i n :
  i < n -> bool_decide (a <= i < n) = (a <=? i).
Proof.
  intros. case_bool_decide; symmetry; [apply Nat.leb_le | apply Nat.leb_gt]; lia.
Qed.

(** Eight conditional pushes in rule order build the filtered rule list. *)
Lemma pushes_filter (h : nat -> bool) :
  let push r (l : list nat) := if h r then l ++ [r] else l in
  push 8 (push 7 (push 6 (push 5 (push 4 (push 3 (push 2 (push 1 [])))))))
  = List.filter h [1; 2; 3; 4; 5; 6; 7; 8].
Proof.
  simpl.
  destruct (h 1), (h 2), (h 3), (h 4), (h 5), (h 6), (h 7), (h 8);
    reflexivity.
Qed.

(** Entry [i] of the result lists, in rule order, the rules whose test
    holds at [i]. *)
Lemma check_lookup data mean sd i :
  checkNelsonRules data mean sd !! i =
  if bool_decide (i < length data)
  then Some (List.filter (rule_holds data mean sd i) [1; 2; 3; 4; 5; 6; 7; 8])
  else None.
Proof.
  unfold checkNelsonRules.
  change (imap pair data) with (imap (fun j (x : float) => (0 + j, x)) data).
  assert (H4 : forall v : violations,
    (if 14 <=? length data
     then for_range 13 (length data) (fun i acc =>
            if rule4_test (slice (i - 13) (i + 1) data)
            then push_at i 4 acc else acc) v
     else v) !! i
    = (fun l => if bool_decide (13 <= i < length data)
                   && rule4_test (slice (i - 13) (i + 1) data)
                then l ++ [4] else l) <$> v !! i).
  { intros v. destruct (14 <=? length data) eqn:Hn.
    - apply for_range_push_lookup.
    - apply Nat.leb_gt in Hn. rewrite bool_decide_eq_false_2 by lia.
      by destruct (v !! i). }
  rewrite !for_range_push_lookup, H4, !for_range_push_lookup.
  rewrite (forEach_push_lookup (rule1_test mean sd) 1 data 0).
  clear H4. rewrite Nat.sub_0_r.
  destruct (decide (i < length data)) as [Hi|Hi].
  - rewrite (bool_decide_eq_true_2 (i < length data)) by done.
    rewrite lookup_replicate_2 by done.
    rewrite (bool_decide_eq_true_2 (0 <= i < 0 + length data)) by lia.
    rewrite !bool_decide_range by done.
    rewrite <- (pushes_filter (rule_holds data mean sd i)).
    reflexivity.
  - rewrite (bool_decide_eq_false_2 (i < length data)) by done.
    rewrite (proj1 (lookup_replicate_None _ _ _)) by lia. done.
Qed.

Lemma flagged_iff data mean sd i r :
  flagged data mean sd i r <->
  i < length data /\ 1 <= r <= 8 /\ rule_holds data mean sd i r = true.
Proof.
  unfold flagged. rewrite check_lookup. split.
  - intros (vs & Hvs & Hr). case_bool_decide; [|done].
    assert (Hv : vs = List.filter (rule_holds data mean sd i)
                       [1; 2; 3; 4; 5; 6; 7; 8]) by congruence.
    rewrite Hv in Hr. apply list_elem_of_In, filter_In in Hr as [Hin Hr].
    repeat split; try done; simpl in Hin; lia.
  - intros (Hi & Hr & Hh). rewrite bool_decide_eq_true_2 by done.
    eexists; split; [done|]. apply list_elem_of_In, filter_In.
    split; [simpl; lia | done].
Qed.

Lemma checkNelsonRules_length data mean sd :
  length (checkNelsonRules data mean sd) = length data.
Proof.
  destruct (Nat.lt_trichotomy (length (checkNelsonRules data mean sd))
              (length data)) as [Hlt|[Heq|Hgt]]; [|done|].
  - pose proof (check_lookup data mean sd
                  (length (checkNelsonRules data mean sd))) as H.
    rewrite bool_decide_eq_true_2 in H by done.
    rewrite lookup_ge_None_2 in H by lia. done.
  - pose proof (check_lookup data mean sd (length data)) as H.
    rewrite bool_decide_eq_false_2 in H by lia.
    apply lookup_ge_None_1 in H. lia.
Qed.

Lemma StronglySorted_filter_bool (R : nat -> nat -> Prop) (h : nat -> bool)
    (l : list nat) :
  StronglySorted R l -> StronglySorted R (List.filter h l).
Proof.
  induction 1 as [|x l Hl IH Hx]; simpl; [constructor|].
  destruct (h x); [|done]. constructor; [done|].
  apply Forall_forall. intros y Hy%list_elem_of_In%filter_In.
  rewrite Forall_forall in Hx. apply Hx, list_elem_of_In, Hy.
Qed.

Lemma rules_sorted : StronglySorted lt [1; 2; 3; 4; 5; 6; 7; 8].
Proof. repeat (constructor; [|repeat constructor; lia]). constructor. Qed.

(** The inner loop of rule 4 keeps [alternating] exactly when every step
    fails the [>= 0] test. *)
Lemma rule4_loop_true (sl : list float) (js : list nat) :
  rule4_loop sl js true = true <->
  forall j, j ∈ js ->
    JS.ge ((at_index sl j - at_index sl (j - 1))
           * (at_index sl (j - 1) - at_index sl (j - 2))) 0 = false.
Proof.
  induction js as [|j js IH]; simpl.
  - split; [|done]. intros _ j Hj. by apply elem_of_nil in Hj.
  - destruct (JS.ge _ 0) eqn:Hge.
    + split; [done|]. intros H. specialize (H j (list_elem_of_here _ _)).
      congruence.
    + rewrite IH. split.
      * intros H j' [->|Hj']%elem_of_cons; [done|by apply H].
      * intros H j' Hj'. apply H. by apply elem_of_cons; right.
Qed.

Lemma slice_window_length data i w :
  w <= i -> i < length data -> length (slice (i - w) (i + 1) data) = S w.
Proof. intros. unfold slice. rewrite length_take, length_drop. lia. Qed.

End RuleEngine.

(* ===================================================================== *)
(** ** Properties of the rule engine                                      *)
(* ===================================================================== *)

Section RuleEngineClaims.

Import Nelson.
#[local] Open Scope nat_scope.

Implicit Types (data : list float) (mean sd : float) (i r : nat).

(** C6. Rule 1 is listed at index [i] exactly when the value there
    satisfies [|value - mean| > 3 * sd], for every index of the series
    (no history is needed); a value exactly at the threshold is not
    listed, the comparison being strict. *)
Theorem rule1_flagged_iff data mean sd i :
  (flagged data mean sd i 1 <->
   exists val, data !! i = Some val
               /\ JS.gt (PrimFloat.abs (val - mean)) (3 * sd) = true)
  /\ (forall val, data !! i = Some val ->
        (PrimFloat.abs (val - mean) =? 3 * sd)%float = true ->
        ~ flagged data mean sd i 1).
Proof.
  assert (Hiff : flagged data mean sd i 1 <->
    exists val, data !! i = Some val
                /\ JS.gt (PrimFloat.abs (val - mean)) (3 * sd) = true).
  { rewrite flagged_iff. unfold rule_holds, rule1_test, at_index. split.
    - intros (Hi & _ & H). apply lookup_lt_is_Some in Hi as [val Hval].
      rewrite Hval in H. eauto.
    - intros (val & Hval & H). rewrite Hval. simpl.
      apply lookup_lt_Some in Hval as Hi. repeat split; try done; lia. }
  split; [exact Hiff|].
  intros val Hval Heq (val' & Hval' & Hgt)%Hiff.
  assert (val' = val) as -> by congruence.
  unfold JS.gt in Hgt. apply eqb_not_ltb in Heq. congruence.
Qed.

Lemma rule1_flagged_iff_witness :
  (Inputs.threshold_series !! 9 = Some 500%float
   /\ (PrimFloat.abs (500 - 59) =? 3 * 147)%float = true)
  /\ ~ flagged Inputs.threshold_series 59 147 9 1.
Proof.
  split; [split; reflexivity|].
  apply (proj2 (rule1_flagged_iff Inputs.threshold_series 59 147 9) 500%float);
    reflexivity.
Defined.

(** The statistics of that series are the mean and deviation used above,
    and the engine lists only rule 2, at the ninth reading. *)
Example threshold_series_run :
  Stats.avg (Stats.calcStats Inputs.threshold_series) = 59%float
  /\ Stats.sd (Stats.calcStats Inputs.threshold_series) = 147%float
  /\ Inputs.with_stats Inputs.threshold_series
     = [[]; []; []; []; []; []; []; []; [2]; []].
Proof. repeat split; vm_compute; reflexivity. Qed.

(** C7. No rule is listed at an index that has fewer points behind it
    than the rule's window: with windows 1, 9, 6, 14, 3, 5, 15 and 8 for
    rules 1 to 8, rule [r] is never listed at an index [i] with
    [i < min_window r - 1]. *)
Theorem window_minimums data mean sd r i :
  i + 1 < min_window r -> ~ flagged data mean sd i r.
Proof.
  intros Hw (Hi & Hr & H)%flagged_iff.
  assert (Hcases : r = 1 \/ r = 2 \/ r = 3 \/ r = 4 \/ r = 5 \/ r = 6
                   \/ r = 7 \/ r = 8) by lia.
  unfold rule_holds in H.
  destruct Hcases as [->|[->|[->|[->|[->|[->|[->| ->]]]]]]]; simpl in Hw;
    try lia;
    apply andb_true_iff in H as [Hb _]; apply Nat.leb_le in Hb; lia.
Qed.

Lemma window_minimums_witness :
  7 + 1 < min_window 2
  /\ ~ flagged [1; 2; 3; 4; 5; 6; 7; 8; 9]%float 100 1 7 2.
Proof.
  split; [simpl; lia|].
  apply (window_minimums [1; 2; 3; 4; 5; 6; 7; 8; 9]%float 100 1 2 7).
  simpl. lia.
Defined.

(** The windows of rules 1 to 8. *)
Example min_window_table :
  map min_window [1; 2; 3; 4; 5; 6; 7; 8] = [1; 9; 6; 14; 3; 5; 15; 8].
Proof. reflexivity. Qed.

(** C9. The result has one entry per input value, entry [i] being the
    one computed for the window that ends at input [i]; every entry holds
    only rule numbers from 1 to 8, none of them twice, in ascending
    order. *)
Theorem output_shape data mean sd :
  length (checkNelsonRules data mean sd) = length data
  /\ forall i vs, checkNelsonRules data mean sd !! i = Some vs ->
       vs = List.filter (rule_holds data mean sd i) [1; 2; 3; 4; 5; 6; 7; 8]
       /\ Forall (fun r => 1 <= r <= 8) vs
       /\ NoDup vs
       /\ StronglySorted lt vs.
Proof.
  split; [apply checkNelsonRules_length|].
  intros i vs Hvs. rewrite check_lookup in Hvs.
  case_bool_decide; [|done].
  assert (Hv : vs = List.filter (rule_holds data mean sd i)
                     [1; 2; 3; 4; 5; 6; 7; 8]) by congruence.
  clear Hvs. split; [done|]. rewrite Hv.
  assert (Hs : StronglySorted lt
                 (List.filter (rule_holds data mean sd i)
                    [1; 2; 3; 4; 5; 6; 7; 8]))
    by apply StronglySorted_filter_bool, rules_sorted.
  repeat split.
  - apply Forall_forall. intros r [Hr _]%list_elem_of_In%filter_In.
    simpl in Hr. lia.
  - apply NoDup_ListNoDup, List.NoDup_filter.
    repeat (constructor; [simpl; lia|]). constructor.
  - exact Hs.
Qed.

Lemma output_shape_witness :
  checkNelsonRules [1; 2; 3; 4; 5; 6; 7; 8; 9]%float 100 200 !! 8 = Some [2; 3]
  /\ ([2; 3] = List.filter
                 (rule_holds [1; 2; 3; 4; 5; 6; 7; 8; 9]%float 100 200 8)
                 [1; 2; 3; 4; 5; 6; 7; 8]
      /\ Forall (fun r => 1 <= r <= 8) [2; 3]
      /\ NoDup [2; 3]
      /\ StronglySorted lt [2; 3]).
Proof.
  split; [reflexivity|].
  apply (proj2 (output_shape [1; 2; 3; 4; 5; 6; 7; 8; 9]%float 100 200) 8).
  reflexivity.
Defined.

(** What the loop of rule 4 tests. Rule 4 is listed at index [i] exactly
    when [i] is at least 13 and, at each of the twelve steps of the
    14-point window ending at [i], the product of the change and the change
    before it fails [>= 0]: the two changes have strictly opposite signs
    and their product is not a zero, or the product is NaN. Where every
    product is an ordinary number other than zero this is the alternation
    of the rule's description; the two other cases are where the loop
    departs from it. *)
Lemma rule4_flagged_iff data mean sd i :
  flagged data mean sd i 4 <->
  13 <= i < length data
  /\ forall j, 2 <= j < 14 ->
       let w := slice (i - 13) (i + 1) data in
       let c := (at_index w j - at_index w (j - 1))%float in
       let p := (at_index w (j - 1) - at_index w (j - 2))%float in
       (opposite_signs c p && negb (is_zero (c * p))) || is_nan (c * p)
       = true.
Proof.
  rewrite flagged_iff. unfold rule_holds, rule4_test.
  split.
  - intros (Hi & _ & [Hb H]%andb_true_iff). apply Nat.leb_le in Hb.
    split; [lia|]. rewrite slice_window_length in H by lia.
    intros j Hj. simpl. apply rule4_step_iff.
    apply (proj1 (rule4_loop_true _ _) H). apply elem_of_seq. lia.
  - intros (Hi & H). repeat split; try lia.
    apply andb_true_iff. split; [apply Nat.leb_le; lia|].
    rewrite slice_window_length by lia. apply rule4_loop_true.
    intros j Hj%elem_of_seq. apply rule4_step_iff. apply H. lia.
Qed.

(** C5. Rule 4 is meant to list a point when the fourteen readings ending
    there alternate up and down, as its comment and its description say;
    the loop tests the sign of the product of neighbouring changes instead
    of comparing the readings, as rule 3 next to it does, and misjudges
    both ways. Fourteen readings going up and down by [1e-200] alternate
    strictly, yet rule 4 is not listed at the 14th: each product of
    neighbouring changes underflows to [-0], and [-0 >= 0] holds. Fourteen
    finite readings that repeat every second one do not alternate, yet
    rule 4 is listed at the 14th: each product is [0 * Infinity], that is
    NaN, and [NaN >= 0] fails. *)
Theorem rule4_misjudges_alternation :
  (changes_alternate (slice 0 14 Inputs.tiny_zigzag) = true
   /\ Inputs.with_stats Inputs.tiny_zigzag !! 13 = Some [1; 5; 6; 8]
   /\ rule_holds Inputs.tiny_zigzag 0 1 13 4 = false
   /\ ((0 - 1e-200) * (1e-200 - 0))%float = (-0)%float
   /\ JS.ge (-0) 0 = true)
  /\ (changes_alternate (slice 0 14 Inputs.huge_ties) = false
      /\ Inputs.with_stats Inputs.huge_ties !! 13 = Some [4]
      /\ rule_holds Inputs.huge_ties 0 1 13 4 = true
      /\ ((-1e308 - -1e308) * (-1e308 - 1e308))%float = nan
      /\ JS.ge nan 0 = false).
Proof. repeat split; vm_compute; reflexivity. Qed.

(** Rule 3 on the same two series: it compares each reading with the one
    before it, and is listed at no point of either. *)
Example rule3_on_the_same_series :
  List.filter (fun vs => bool_decide (3 ∈ vs))
              (Inputs.with_stats Inputs.tiny_zigzag) = []
  /\ List.filter (fun vs => bool_decide (3 ∈ vs))
                 (Inputs.with_stats Inputs.huge_ties) = []
  /\ rule3_test [0; 1e-200; 2e-200; 3e-200; 4e-200; 5e-200]%float = true.
Proof. repeat split; vm_compute; reflexivity. Qed.

(** The example of the rule's description: strict alternation between 1
    and 5 is listed at the 14th point. *)
Example rule4_zigzag :
  Inputs.with_stats Inputs.zigzag !! 13 = Some [4]
  /\ changes_alternate (slice 0 14 Inputs.zigzag) = true.
Proof. split; vm_compute; reflexivity. Qed.

End RuleEngineClaims.

(* ===================================================================== *)
(** ** Properties of the channel statistics                               *)
(* ===================================================================== *)

Section StatisticsClaims.

Import Stats.

(** C8. [calcStats] on an empty array returns: the mean, the standard
    deviation and the relative standard deviation are all NaN. *)
Theorem calcStats_empty :
  calcStats [] = {| avg := nan; sd := nan; rsd := nan |}.
Proof. reflexivity. Qed.

(** C3 (as the code computes it). The relative standard deviation is
    [(sd / avg) * 100] in binary64 arithmetic, for every array. When the
    mean is zero the result is NaN if the standard deviation is zero or
    NaN, and an infinity otherwise. *)
Theorem rsd_formula (arr : list float) :
  rsd (calcStats arr) = (sd (calcStats arr) / avg (calcStats arr) * 100)%float
  /\ (is_zero (avg (calcStats arr)) = true ->
      if is_zero (sd (calcStats arr)) || is_nan (sd (calcStats arr))
      then is_nan (rsd (calcStats arr)) = true
      else is_infinity (rsd (calcStats arr)) = true).
Proof.
  split; [reflexivity|]. intros Hz.
  apply (rsd_zero_mean (sd (calcStats arr)) (avg (calcStats arr)) Hz).
Qed.

Lemma rsd_formula_witness :
  is_zero (avg (calcStats [-1; 1]%float)) = true
  /\ is_infinity (rsd (calcStats [-1; 1]%float)) = true.
Proof.
  split; [reflexivity|].
  apply (proj2 (rsd_formula [-1; 1]%float)). reflexivity.
Defined.

(** C3 fails as stated: the readings [-1] and [1] have mean 0 and standard
    deviation 1, and their relative standard deviation is [Infinity], not
    NaN. Also, the readings [2] and [4] give [(1 / 3) * 100], which is not
    the binary64 value of [100 * 1 / 3]. *)
Lemma rsd_claim_counterexample :
  (avg (calcStats [-1; 1]%float) = 0%float
   /\ sd (calcStats [-1; 1]%float) = 1%float
   /\ rsd (calcStats [-1; 1]%float) = infinity
   /\ is_nan (rsd (calcStats [-1; 1]%float)) = false)
  /\ (rsd (calcStats [2; 4]%float) = 33.333333333333329%float
      /\ (100 * sd (calcStats [2; 4]%float) / avg (calcStats [2; 4]%float)
          = 33.333333333333336)%float
      /\ (rsd (calcStats [2; 4]%float)
          =? 100 * sd (calcStats [2; 4]%float) / avg (calcStats [2; 4]%float))%float
         = false).
Proof. repeat split; reflexivity. Qed.

End StatisticsClaims.

(* ===================================================================== *)
(** ** Properties of the table editor                                     *)
(* ===================================================================== *)

Section EditorClaims.

Import Editor.

Implicit Types (samples : series) (i : JS.value) (f : field).

Lemma updateSample_lookup samples i f value k :
  updateSample samples i f value !! k =
  (fun s => if JS.strict_eq (id s) i
            then set_field f (JS.num_or (JS.parseFloat (JS.Str value)) 0) s
            else s) <$> samples !! k.
Proof.
  unfold updateSample. revert k.
  induction samples as [|s samples IH]; intros [|k]; simpl; auto.
Qed.

Lemma set_field_frame f v s :
  id (set_field f v s) = id s
  /\ get_field (other_field f) (set_field f v s) = get_field (other_field f) s
  /\ get_field f (set_field f v s) = v.
Proof. by destruct f. Qed.

(** C10. [updateSample] keeps the length and the order of the series; a
    sample whose id is strictly equal to the given id keeps its id and its
    other field, and its named field becomes 0 when the text parses to NaN
    (empty or unparseable) and the parsed number otherwise; every other
    sample is unchanged. [deleteSample] keeps, in order, exactly the
    samples whose id is not strictly equal to the given id. Duplicate ids
    are all treated alike. *)
Theorem edit_frame samples i f value :
  (length (updateSample samples i f value) = length samples
   /\ forall k s, samples !! k = Some s ->
        exists s', updateSample samples i f value !! k = Some s'
          /\ if JS.strict_eq (id s) i
             then id s' = id s
                  /\ get_field (other_field f) s' = get_field (other_field f) s
                  /\ (is_nan (JS.parseFloat (JS.Str value)) = true ->
                      get_field f s' = 0%float)
                  /\ (is_nan (JS.parseFloat (JS.Str value)) = false ->
                      (get_field f s' =? JS.parseFloat (JS.Str value))%float
                      = true)
             else s' = s)
  /\ (deleteSample samples i `sublist_of` samples
      /\ (forall s, s ∈ deleteSample samples i <->
                    s ∈ samples /\ JS.strict_eq (id s) i = false)
      /\ (length (deleteSample samples i)
          + length (List.filter (fun s => JS.strict_eq (id s) i) samples)
          = length samples)%nat).
Proof.
  split; [split|split; [|split; [intros s; split|]]].
  - unfold updateSample. apply length_map.
  - intros k s Hs. rewrite updateSample_lookup, Hs.
    eexists; split; [reflexivity|]. cbv beta.
    destruct (JS.strict_eq (id s) i); [|done].
    destruct (set_field_frame f
                (JS.num_or (JS.parseFloat (JS.Str value)) 0) s)
      as (Hid & Hother & Hf).
    destruct (num_or_zero (JS.parseFloat (JS.Str value))) as (Hnan & Heq & _).
    rewrite Hf. auto.
  - unfold deleteSample. induction samples as [|s samples IH]; simpl.
    + constructor.
    + destruct (negb _); by constructor.
  - intros [Hin Hne]%list_elem_of_In%filter_In.
    split; [by apply list_elem_of_In|]. by apply negb_true_iff.
  - intros [Hin Hne]. apply list_elem_of_In, filter_In.
    split; [by apply list_elem_of_In|]. by apply negb_true_iff.
  - unfold deleteSample. induction samples as [|s samples IH]; simpl; [done|].
    destruct (JS.strict_eq (id s) i); simpl; lia.
Qed.

Lemma edit_frame_witness :
  dummy_data !! 1%nat = Some (Sample (JS.Num 2) 26.8 9.8)
  /\ exists s', updateSample dummy_data (JS.Num 2) Weight "abc" !! 1%nat = Some s'
       /\ if JS.strict_eq (id (Sample (JS.Num 2) 26.8 9.8)) (JS.Num 2)
          then id s' = id (Sample (JS.Num 2) 26.8 9.8)
               /\ get_field (other_field Weight) s'
                  = get_field (other_field Weight) (Sample (JS.Num 2) 26.8 9.8)
               /\ (is_nan (JS.parseFloat (JS.Str "abc")) = true ->
                   get_field Weight s' = 0%float)
               /\ (is_nan (JS.parseFloat (JS.Str "abc")) = false ->
                   (get_field Weight s' =? JS.parseFloat (JS.Str "abc"))%float
                   = true)
          else s' = Sample (JS.Num 2) 26.8 9.8.
Proof.
  split; [reflexivity|].
  apply (proj2 (proj1 (edit_frame dummy_data (JS.Num 2) Weight "abc")) 1%nat).
  reflexivity.
Defined.

(** Two rows with the same id are edited, and deleted, together. *)
Example edit_duplicates :
  let samples := [Sample (JS.Num 7) 1 2; Sample (JS.Num 3) 4 5;
                  Sample (JS.Num 7) 6 8]%float in
  updateSample samples (JS.Num 7) Hardness "10.5"
  = [Sample (JS.Num 7) 1 10.5; Sample (JS.Num 3) 4 5;
     Sample (JS.Num 7) 6 10.5]%float
  /\ updateSample samples (JS.Num 7) Weight EmptyString
    = [Sample (JS.Num 7) 0 2; Sample (JS.Num 3) 4 5;
       Sample (JS.Num 7) 0 8]%float
  /\ deleteSample samples (JS.Num 7) = [Sample (JS.Num 3) 4 5]%float.
Proof. repeat split; vm_compute; reflexivity. Qed.

(** Ids are not kept unique: deleting a row and adding one repeats an id. *)
Example addSample_repeats_id :
  map id (addSample (deleteSample dummy_data (JS.Num 2)))
  = [JS.Num 1; JS.Num 3; JS.Num 4; JS.Num 5; JS.Num 5].
Proof. vm_compute. reflexivity. Qed.

End EditorClaims.

(* ===================================================================== *)
(** ** Properties of the backend                                          *)
(* ===================================================================== *)

Section BackendClaims.

Import Backend.

Implicit Types (sv : server) (f : backing_file) (r : row).

(** C2. The startup load never throws. With the file missing, or with a
    read that throws, it returns the dummy data: ids 1 to 5, weights 27.2,
    26.8, 27.5, 26.5, 27.8 and hardnesses 10.1, 9.8, 10.3, 9.5, 10.8, the
    same on every start. Otherwise it returns the transformed rows of
    the first sheet. In every case startup succeeds with the loaded series
    as [currentData]. *)
Theorem readExcelFile_never_throws :
  readExcelFile Missing = Returns dummy_data
  /\ (forall why, readExcelFile (Unreadable why) = Returns dummy_data)
  /\ (forall sheets,
        readExcelFile (Workbook sheets)
        = Returns (imap transform (first_sheet_json sheets)))
  /\ (forall f, exists sv,
        startup f = Returns sv /\ readExcelFile f = Returns (currentData sv))
  /\ dummy_data
     = [ Sample (JS.Num 1) 27.2 10.1; Sample (JS.Num 2) 26.8 9.8;
         Sample (JS.Num 3) 27.5 10.3; Sample (JS.Num 4) 26.5 9.5;
         Sample (JS.Num 5) 27.8 10.8 ]%float.
Proof.
  repeat split; try reflexivity.
  intros f. unfold startup.
  destruct f as [|why|sheets]; eexists; split; reflexivity.
Qed.

Lemma prop_missing r key : r !! key = None -> prop r key = JS.Undefined.
Proof. unfold prop. by intros ->. Qed.

Lemma prop_present r key v : r !! key = Some v -> prop r key = v.
Proof. unfold prop. by intros ->. Qed.

(** The cell picked for a channel: the lower-case header first, then the
    capitalised one, then 0. *)
Lemma pick_missing r lower upper :
  r !! lower = None -> r !! upper = None ->
  JS.parseFloat (JS.or (JS.or (prop r lower) (prop r upper)) (JS.Num 0))
  = 0%float.
Proof. intros Hl Hu. by rewrite (prop_missing _ _ Hl), (prop_missing _ _ Hu). Qed.

Lemma parseFloat_truthy_num n :
  JS.num_truthy n = true -> JS.parseFloat (JS.Num n) = n.
Proof.
  unfold JS.num_truthy. intros [Hz _]%negb_true_iff%orb_false_iff.
  simpl. by rewrite Hz.
Qed.

Lemma or_truthy_num n v :
  JS.num_truthy n = true -> JS.or (JS.Num n) v = JS.Num n.
Proof. unfold JS.or. cbn [JS.ToBoolean]. by intros ->. Qed.

Lemma pick_lower r lower upper n :
  r !! lower = Some (JS.Num n) -> JS.num_truthy n = true ->
  JS.parseFloat (JS.or (JS.or (prop r lower) (prop r upper)) (JS.Num 0)) = n.
Proof.
  intros Hl Hn. rewrite (prop_present _ _ _ Hl).
  rewrite (or_truthy_num n (prop r upper) Hn), (or_truthy_num n (JS.Num 0) Hn).
  by apply parseFloat_truthy_num.
Qed.

Lemma pick_upper r lower upper n :
  r !! lower = None -> r !! upper = Some (JS.Num n) -> JS.num_truthy n = true ->
  JS.parseFloat (JS.or (JS.or (prop r lower) (prop r upper)) (JS.Num 0)) = n.
Proof.
  intros Hl Hu Hn. rewrite (prop_missing _ _ Hl), (prop_present _ _ _ Hu).
  change (JS.or JS.Undefined (JS.Num n)) with (JS.Num n).
  rewrite (or_truthy_num n (JS.Num 0) Hn). by apply parseFloat_truthy_num.
Qed.

(** C4 (as the code reads a row). The row at position [index] of the first
    sheet becomes [transform index row]. Only the exact headers [id],
    [weight], [Weight], [hardness] and [Hardness] are consulted. A channel
    whose two headers are both missing is 0; a numeric cell other than 0
    and NaN under the lower-case header is kept, and under the capitalised
    header it is kept when the lower-case one is missing. A missing id
    becomes the position plus one. *)
Theorem transform_row (index : nat) r :
  (forall name rows rest,
     readExcelFile (Workbook ((name, rows) :: rest))
     = Returns (imap transform rows))
  /\ (forall r',
        Forall (fun key => r' !! key = r !! key)
               ["id"; "weight"; "Weight"; "hardness"; "Hardness"]%string ->
        transform index r' = transform index r)
  /\ (r !! "id"%string = None ->
      id (transform index r) = JS.Num (JS.of_nat index + 1)%float)
  /\ (r !! "weight"%string = None -> r !! "Weight"%string = None ->
      weight (transform index r) = 0%float)
  /\ (r !! "hardness"%string = None -> r !! "Hardness"%string = None ->
      hardness (transform index r) = 0%float)
  /\ (forall n, JS.num_truthy n = true ->
        (r !! "weight"%string = Some (JS.Num n) ->
         weight (transform index r) = n)
        /\ (r !! "weight"%string = None ->
            r !! "Weight"%string = Some (JS.Num n) ->
            weight (transform index r) = n)
        /\ (r !! "hardness"%string = Some (JS.Num n) ->
            hardness (transform index r) = n)
        /\ (r !! "hardness"%string = None ->
            r !! "Hardness"%string = Some (JS.Num n) ->
            hardness (transform index r) = n)).
Proof.
  split; [reflexivity|]. split.
  { intros r' H. repeat (apply Forall_cons in H as [? H]).
    unfold transform, prop. by repeat match goal with
                                   | E : r' !! _ = _ |- _ => rewrite E; clear E
                                   end. }
  split.
  { intros H. unfold transform. simpl. by rewrite (prop_missing _ _ H). }
  split; [apply pick_missing|]. split; [apply pick_missing|].
  intros n Hn. repeat split.
  - intros H. by apply pick_lower.
  - intros Hl Hu. by apply pick_upper.
  - intros H. by apply pick_lower.
  - intros Hl Hu. by apply pick_upper.
Qed.

Lemma transform_row_witness :
  (Inputs.capitalised_row !! "weight"%string = None
   /\ Inputs.capitalised_row !! "Weight"%string = Some (JS.Num 26.8)
   /\ JS.num_truthy 26.8 = true)
  /\ weight (transform 6 Inputs.capitalised_row) = 26.8%float.
Proof.
  split; [repeat split; vm_compute; reflexivity|].
  destruct (transform_row 6 Inputs.capitalised_row)
    as (_ & _ & _ & _ & _ & H).
  destruct (H 26.8%float) as (_ & Hu & _); [vm_compute; reflexivity|].
  apply Hu; vm_compute; reflexivity.
Defined.

(** C4 fails as stated. Headers in capitals are not matched, so the row
    reads as weight 0 and hardness 0 although both cells hold numbers; and a
    weight cell holding the text [abc] reads as NaN, not as 0. *)
Lemma transform_claim_counterexample :
  ((Inputs.capitals_row !! "WEIGHT"%string = Some (JS.Num 27.2)
    /\ Inputs.capitals_row !! "HARDNESS"%string = Some (JS.Num 10.1))
   /\ transform 0 Inputs.capitals_row = Sample (JS.Num 1) 0 0)
  /\ (Inputs.text_row !! "weight"%string = Some (JS.Str "abc")
      /\ weight (transform 2 Inputs.text_row) = nan).
Proof. repeat split; vm_compute; reflexivity. Qed.

(** A text cell is read up to the end of its longest numeric prefix. *)
Example transform_text_row :
  transform 2 Inputs.text_row = Sample (JS.Num 3) nan 9.8.
Proof. vm_compute. reflexivity. Qed.

(** The id given to a row without one is its position counted from 1
    (checked here for the first 5000 rows). *)
Example position_from_one :
  forallb (fun k => PrimFloat.Leibniz.eqb (JS.of_nat k + 1)%float
                                          (JS.of_nat (k + 1)))
          (seq 0 5000) = true.
Proof. vm_compute. reflexivity. Qed.

Example transform_capitalised_row :
  transform 6 Inputs.capitalised_row = Sample (JS.Str "A7") 26.8 0.
Proof. vm_compute. reflexivity. Qed.

Lemma readExcelFile_returns f : exists d, readExcelFile f = Returns d.
Proof. destruct f as [|why|sheets]; eexists; reflexivity. Qed.

(** What one socket receives from a message sent to each socket of a
    duplicate-free list. *)
Lemma received_map (c : string) (d : series) (l : list string) :
  NoDup l ->
  received c (map (fun c' => (c', d)) l) = if bool_decide (c ∈ l) then [d] else [].
Proof.
  unfold received. induction 1 as [|c' l Hc' Hl IH]; simpl; [done|].
  destruct (String.eqb_spec c' c) as [->|Hne]; simpl.
  - rewrite bool_decide_eq_true_2 by apply list_elem_of_here. f_equal.
    rewrite IH. by rewrite bool_decide_eq_false_2.
  - rewrite IH. destruct (decide (c ∈ l)).
    + rewrite !bool_decide_eq_true_2; [done| |done].
      by apply elem_of_cons; right.
    + rewrite !bool_decide_eq_false_2; [done| |done].
      intros [?|?]%elem_of_cons; congruence.
Qed.

Lemma received_io_emit sv d c :
  received c (io_emit sv d) = if bool_decide (c ∈ sockets sv) then [d] else [].
Proof.
  unfold io_emit. rewrite received_map by apply NoDup_elements.
  destruct (decide (c ∈ sockets sv)) as [Hc|Hc].
  - rewrite !bool_decide_eq_true_2; [done|done|by apply elem_of_elements].
  - rewrite !bool_decide_eq_false_2; [done|done|by rewrite elem_of_elements].
Qed.

Lemma received_broadcast_emit sv sender d c :
  received c (broadcast_emit sv sender d)
  = if bool_decide (c ∈ sockets sv /\ c <> sender) then [d] else [].
Proof.
  unfold broadcast_emit. rewrite received_map by apply NoDup_elements.
  destruct (decide (c ∈ sockets sv /\ c <> sender)) as [Hc|Hc].
  - rewrite !bool_decide_eq_true_2; [done|done|].
    apply elem_of_elements. set_solver.
  - rewrite !bool_decide_eq_false_2; [done|done|].
    rewrite elem_of_elements. set_solver.
Qed.

(** Two updates from two of three viewers, evaluated: what each of the
    three receives from the two handlers. *)
Example three_viewers_run :
  (p1 ← handle (UpdateData "e1" Inputs.series_A true) Inputs.three_viewers;
   p2 ← handle (UpdateData "e2" Inputs.series_B true) (fst p1);
   Returns (map (fun c => received c (snd p1 ++ snd p2))
                ["e1"; "e2"; "e3"]%string))
  = Returns [[Inputs.series_B]; [Inputs.series_A];
             [Inputs.series_A; Inputs.series_B]].
Proof. vm_compute. reflexivity. Qed.

End BackendClaims.

(* ===================================================================== *)
(** ** More facts about binary64: NaN, order, square roots                *)
(* ===================================================================== *)

Section FloatOrder.

Implicit Types x y : float.

Lemma ltb_asym x y : (x <? y)%float = true -> (y <? x)%float = false.
Proof.
  rewrite !FloatAxioms.ltb_spec. unfold SFltb.
  rewrite (SFcompare_antisym (Prim2SF x) (Prim2SF y)).
  by destruct (SFcompare (Prim2SF x) (Prim2SF y)) as [[]|].
Qed.

Lemma SFcompare_nan_r X : SFcompare X S754_nan = None.
Proof. by destruct X. Qed.

Lemma ltb_nan_r x y : is_nan y = true -> (x <? y)%float = false.
Proof.
  intros Hy%is_nan_SF. rewrite FloatAxioms.ltb_spec. unfold SFltb.
  by rewrite Hy, SFcompare_nan_r.
Qed.

Lemma ltb_nan_l x y : is_nan x = true -> (x <? y)%float = false.
Proof.
  intros Hx%is_nan_SF. rewrite FloatAxioms.ltb_spec. unfold SFltb.
  by rewrite Hx.
Qed.

Lemma eqb_nan_r x y : is_nan y = true -> (x =? y)%float = false.
Proof.
  intros Hy%is_nan_SF. rewrite FloatAxioms.eqb_spec. unfold SFeqb.
  by rewrite Hy, SFcompare_nan_r.
Qed.

Lemma eqb_nan_l x y : is_nan x = true -> (x =? y)%float = false.
Proof.
  intros Hx%is_nan_SF. rewrite FloatAxioms.eqb_spec. unfold SFeqb.
  by rewrite Hx.
Qed.

Lemma add_nan_l x y : is_nan x = true -> is_nan (x + y) = true.
Proof. intros Hx%is_nan_SF. apply is_nan_SF. by rewrite add_spec, Hx. Qed.

Lemma add_nan_r x y : is_nan y = true -> is_nan (x + y) = true.
Proof.
  intros Hy%is_nan_SF. apply is_nan_SF. rewrite add_spec, Hy.
  by destruct (Prim2SF x).
Qed.

Lemma sub_nan_l x y : is_nan x = true -> is_nan (x - y) = true.
Proof. intros Hx%is_nan_SF. apply is_nan_SF. by rewrite sub_spec, Hx. Qed.

Lemma sub_nan_r x y : is_nan y = true -> is_nan (x - y) = true.
Proof.
  intros Hy%is_nan_SF. apply is_nan_SF. rewrite sub_spec, Hy.
  by destruct (Prim2SF x).
Qed.

Lemma mul_nan_l x y : is_nan x = true -> is_nan (x * y) = true.
Proof. intros Hx%is_nan_SF. apply is_nan_SF. by rewrite mul_spec, Hx. Qed.

Lemma mul_nan_r x y : is_nan y = true -> is_nan (x * y) = true.
Proof.
  intros Hy%is_nan_SF. apply is_nan_SF. rewrite mul_spec, Hy.
  by destruct (Prim2SF x).
Qed.

Lemma div_nan_l x y : is_nan x = true -> is_nan (x / y) = true.
Proof. intros Hx%is_nan_SF. apply is_nan_SF. by rewrite div_spec, Hx. Qed.

Lemma div_nan_r x y : is_nan y = true -> is_nan (x / y) = true.
Proof.
  intros Hy%is_nan_SF. apply is_nan_SF. rewrite div_spec, Hy.
  by destruct (Prim2SF x).
Qed.

Lemma abs_nan x : is_nan x = true -> is_nan (PrimFloat.abs x) = true.
Proof. intros Hx%is_nan_SF. apply is_nan_SF. by rewrite abs_spec, Hx. Qed.

Lemma sqrt_nan x : is_nan x = true -> is_nan (PrimFloat.sqrt x) = true.
Proof. intros Hx%is_nan_SF. apply is_nan_SF. by rewrite sqrt_spec, Hx. Qed.

(** A square root is never below zero. *)
Lemma sqrt_not_negative x : (PrimFloat.sqrt x <? 0)%float = false.
Proof.
  rewrite FloatAxioms.ltb_spec, sqrt_spec, Prim2SF_zero.
  unfold SF64sqrt, SFsqrt, SFltb.
  destruct (Prim2SF x) as [s| s | |s m e]; try done; try (by destruct s).
  destruct s; [done|].
  destruct (SFsqrt_core_binary prec emax (Z.pos m) e) as [[mz ez] lz].
  destruct (binary_round_aux_cases false mz ez lz)
    as [-> | [(m' & e' & ->) | [-> | ->]]]; done.
Qed.

End FloatOrder.

(* ===================================================================== *)
(** ** More properties of the channel statistics                          *)
(* ===================================================================== *)

Section StatisticsMore.

Import Stats.

(** The spec-level value of [arr.length] is a zero, a positive number or
    (never, but not excluded here) an infinity or NaN: its sign is positive. *)
Lemma of_nat_sign (k : nat) :
  Prim2SF (JS.of_nat k) = S754_zero false
  \/ (exists m e, Prim2SF (JS.of_nat k) = S754_finite false m e)
  \/ Prim2SF (JS.of_nat k) = S754_infinity false
  \/ Prim2SF (JS.of_nat k) = S754_nan.
Proof.
  unfold JS.of_nat. rewrite of_uint63_spec.
  pose proof (Uint63.to_Z_bounded (Uint63.of_Z (Z.of_nat k))) as Hb.
  destruct (Uint63.to_Z (Uint63.of_Z (Z.of_nat k))) as [|p|p]; [by left| |lia].
  unfold binary_normalize, binary_round.
  destruct (shl_align p 0 _) as [mz ez].
  apply binary_round_aux_cases.
Qed.

(** Adding a term that is NaN makes a running sum NaN, and it stays so. *)
Lemma foldl_add_nan (g : float -> float) (l : list float) : forall acc,
  is_nan acc = true \/ (exists v, v ∈ l /\ is_nan (g v) = true) ->
  is_nan (foldl (fun sum val => (sum + g val)%float) acc l) = true.
Proof.
  induction l as [|x l IH]; intros acc H; simpl.
  - destruct H as [H|(v & Hv & _)]; [done|]. by apply elem_of_nil in Hv.
  - apply IH. destruct H as [H|(v & [->|Hv]%elem_of_cons & Hn)].
    + left. by apply add_nan_l.
    + left. by apply add_nan_r.
    + right. eauto.
Qed.

(** A running sum that has met an infinity of sign [s] is that infinity or
    NaN. *)
Lemma foldl_add_inf (s : bool) (l : list float) : forall acc,
  (Prim2SF acc = S754_infinity s \/ Prim2SF acc = S754_nan)
  \/ (exists v, v ∈ l /\ Prim2SF v = S754_infinity s) ->
  Prim2SF (foldl (fun a b => (a + b)%float) acc l) = S754_infinity s
  \/ Prim2SF (foldl (fun a b => (a + b)%float) acc l) = S754_nan.
Proof.
  induction l as [|x l IH]; intros acc H; simpl.
  - destruct H as [H|(v & Hv & _)]; [done|]. by apply elem_of_nil in Hv.
  - apply IH. destruct H as [[H|H]|(v & [->|Hv]%elem_of_cons & Hn)].
    + left. rewrite add_spec, H. unfold SF64add.
      destruct (Prim2SF x) as [s'| s' | |s' m' e']; simpl; auto.
      destruct s, s'; auto.
    + left. right. by rewrite add_spec, H.
    + left. rewrite add_spec, Hn. unfold SF64add.
      destruct (Prim2SF acc) as [s'| s' | |s' m' e']; simpl; auto.
      destruct s', s; auto.
    + right. eauto.
Qed.

Lemma is_finite_false_SF (v : float) :
  is_finite v = false ->
  Prim2SF v = S754_nan \/ exists s, Prim2SF v = S754_infinity s.
Proof.
  unfold is_finite. intros H%negb_false_iff.
  destruct (Prim2SF v) as [s| s | |s m e] eqn:Hv; eauto; exfalso.
  - apply orb_true_iff in H as [H|H].
    + apply is_nan_SF in H. congruence.
    + unfold is_infinity in H.
      by rewrite FloatAxioms.eqb_spec, abs_spec, Hv in H.
  - apply orb_true_iff in H as [H|H].
    + apply is_nan_SF in H. congruence.
    + unfold is_infinity in H.
      by rewrite FloatAxioms.eqb_spec, abs_spec, Hv in H.
Qed.

(** The mean of an array holding a reading [v] that is NaN or infinite
    cancels against [v] to NaN. *)
Lemma deviation_nan (arr : list float) (v : float) :
  v ∈ arr -> is_finite v = false ->
  is_nan (v - avg (calcStats arr)) = true.
Proof.
  intros Hv [Hn|[s Hs]]%is_finite_false_SF.
  - apply sub_nan_l. by apply is_nan_SF.
  - apply is_nan_SF. rewrite sub_spec, Hs. unfold calcStats. cbn [avg].
    rewrite div_spec.
    destruct (foldl_add_inf s arr 0) as [Hsum|Hsum]; [right; eauto| |].
    + rewrite Hsum. unfold SF64div.
      destruct (of_nat_sign (length arr)) as [-> | [(m & e & ->) | [-> | ->]]];
        simpl; by destruct s.
    + by rewrite Hsum.
Qed.

Lemma stats_nan_from_deviation (arr : list float) (v : float) :
  v ∈ arr -> is_nan (v - avg (calcStats arr)) = true ->
  is_nan (sd (calcStats arr)) = true /\ is_nan (rsd (calcStats arr)) = true.
Proof.
  intros Hv Hd.
  assert (Hsd : is_nan (sd (calcStats arr)) = true).
  { unfold calcStats. cbn [sd]. apply sqrt_nan, div_nan_l.
    apply (foldl_add_nan
             (fun val => JS.Math_pow_2 (val - avg (calcStats arr)))).
    right. exists v. split; [done|]. unfold JS.Math_pow_2.
    by apply mul_nan_l. }
  split; [done|].
  change (rsd (calcStats arr))
    with (sd (calcStats arr) / avg (calcStats arr) * 100)%float.
  by apply mul_nan_l, div_nan_l.
Qed.

Lemma sqrt_nan_or_not_below_zero (x : float) :
  is_nan (PrimFloat.sqrt x) || (0 <=? PrimFloat.sqrt x)%float = true.
Proof.
  destruct (is_nan (PrimFloat.sqrt x)) eqn:Hn; [done|]. simpl.
  apply is_nan_false_SF in Hn. pose proof (sqrt_not_negative x) as Hlt.
  rewrite FloatAxioms.ltb_spec in Hlt. rewrite FloatAxioms.leb_spec.
  unfold SFltb in Hlt. unfold SFleb.
  rewrite (SFcompare_antisym (Prim2SF (PrimFloat.sqrt x)) (Prim2SF 0)).
  destruct (SFcompare (Prim2SF (PrimFloat.sqrt x)) (Prim2SF 0))
    as [[]|] eqn:Hc; try done.
  exfalso. rewrite Prim2SF_zero in Hc.
  by destruct (Prim2SF (PrimFloat.sqrt x)) as [s| s | |s m e].
Qed.

Lemma not_finite_SF (x : float) :
  Prim2SF x = S754_nan \/ (exists s, Prim2SF x = S754_infinity s) ->
  is_finite x = false.
Proof.
  intros H. unfold is_finite. apply negb_false_iff, orb_true_iff.
  destruct H as [H|[s H]].
  - left. by apply is_nan_SF.
  - right. unfold is_infinity.
    by rewrite FloatAxioms.eqb_spec, abs_spec, H.
Qed.

(** X1. The standard deviation [calcStats] returns is never negative: it
    is NaN, or it is at least zero. *)
Theorem sd_never_negative (arr : list float) :
  (sd (calcStats arr) <? 0)%float = false
  /\ is_nan (sd (calcStats arr)) || (0 <=? sd (calcStats arr))%float = true.
Proof.
  unfold calcStats. cbn [sd].
  split; [apply sqrt_not_negative | apply sqrt_nan_or_not_below_zero].
Qed.

(** X2. One reading that is NaN or infinite spoils the statistics of the
    whole channel: the mean is then NaN or infinite, and the standard
    deviation and the relative standard deviation are NaN. *)
Theorem bad_reading_spoils_stats (arr : list float) (v : float) :
  v ∈ arr -> is_finite v = false ->
  is_finite (avg (calcStats arr)) = false
  /\ is_nan (sd (calcStats arr)) = true
  /\ is_nan (rsd (calcStats arr)) = true.
Proof.
  intros Hv Hf. split.
  - apply not_finite_SF. unfold calcStats. cbn [avg]. rewrite div_spec.
    destruct (is_finite_false_SF v Hf) as [Hn|[s Hs]].
    + left.
      assert (Hsum : Prim2SF (foldl (fun a b => (a + b)%float) 0%float arr)
                     = S754_nan).
      { apply is_nan_SF, (foldl_add_nan (fun val => val)). right. exists v.
        split; [done|]. by apply is_nan_SF. }
      by rewrite Hsum.
    + destruct (foldl_add_inf s arr 0) as [Hsum|Hsum]; [right; eauto| |].
      * rewrite Hsum. unfold SF64div.
        destruct (of_nat_sign (length arr))
          as [-> | [(m & e & ->) | [-> | ->]]]; simpl; eauto.
      * left. by rewrite Hsum.
  - apply (stats_nan_from_deviation arr v Hv).
    by apply deviation_nan.
Qed.

Lemma bad_reading_spoils_stats_witness :
  (infinity ∈ [26.8; infinity; 27.5]%float /\ is_finite infinity = false)
  /\ is_finite (avg (calcStats [26.8; infinity; 27.5]%float)) = false
  /\ is_nan (sd (calcStats [26.8; infinity; 27.5]%float)) = true
  /\ is_nan (rsd (calcStats [26.8; infinity; 27.5]%float)) = true.
Proof.
  assert (H : infinity ∈ [26.8; infinity; 27.5]%float
              /\ is_finite infinity = false).
  { split; [|reflexivity]. apply elem_of_cons. right. apply list_elem_of_here. }
  split; [exact H|].
  exact (bad_reading_spoils_stats [26.8; infinity; 27.5]%float infinity
           (proj1 H) (proj2 H)).
Defined.

End StatisticsMore.

(* ===================================================================== *)
(** ** More properties of the rule engine: windows by index               *)
(* ===================================================================== *)

Section RuleWindows.

Import Nelson.
#[local] Open Scope nat_scope.

Implicit Types (data : list float) (mean sd : float) (i k r : nat).

Lemma slice_lookup data a b j :
  slice a b data !! j = if bool_decide (j < b - a) then data !! (a + j) else None.
Proof.
  unfold slice. case_bool_decide.
  - by rewrite lookup_take_lt, lookup_drop.
  - by rewrite lookup_take_ge by lia.
Qed.

(** A full window, point by point. *)
Lemma window_points data i w :
  w <= i -> i < length data ->
  slice (i - w) (i + 1) data = map (at_index data) (seq (i - w) (S w)).
Proof.
  intros Hw Hi. apply list_eq. intros j. rewrite slice_lookup.
  change (map (at_index data) (seq (i - w) (S w)))
    with (at_index data <$> seq (i - w) (S w)).
  rewrite list_lookup_fmap. case_bool_decide as Hj.
  - rewrite lookup_seq_lt by lia. simpl. unfold at_index.
    destruct (lookup_lt_is_Some_2 data (i - w + j)) as [v ->]; [lia|done].
  - by rewrite lookup_seq_ge by lia.
Qed.

Lemma every_points (p : float -> bool) data a n :
  every p (map (at_index data) (seq a n)) = true <->
  forall k, a <= k < a + n -> p (at_index data k) = true.
Proof.
  unfold every. rewrite forallb_forall. split.
  - intros H k Hk. apply H, in_map, in_seq. lia.
  - intros H v (k & <- & Hk%in_seq)%in_map_iff. by apply H.
Qed.

Lemma every_i_iff (f : float -> nat -> bool) (l : list float) :
  every_i f l = true <-> forall j v, l !! j = Some v -> f v j = true.
Proof.
  unfold every_i. rewrite forallb_forall. split.
  - intros H j v Hj. apply (H (f v j)), list_elem_of_In, list_elem_of_lookup.
    exists j. by rewrite list_lookup_imap, Hj.
  - intros H b [j Hj]%list_elem_of_In%list_elem_of_lookup.
    rewrite list_lookup_imap in Hj.
    destruct (l !! j) as [v|] eqn:Hv; [|done].
    injection Hj as <-. by apply H.
Qed.

Lemma points_lookup data a n j :
  map (at_index data) (seq a n) !! j
  = if bool_decide (j < n) then Some (at_index data (a + j)) else None.
Proof.
  change (map (at_index data) (seq a n)) with (at_index data <$> seq a n).
  rewrite list_lookup_fmap. case_bool_decide.
  - by rewrite lookup_seq_lt.
  - by rewrite lookup_seq_ge by lia.
Qed.

(** Each point is compared with the one before it, from the second point
    of the window on. *)
Lemma every_i_steps (cmp : float -> float -> bool) data a n :
  every_i (fun v j => (j =? 0) || cmp v (at_index (map (at_index data) (seq a n)) (j - 1)))
          (map (at_index data) (seq a n)) = true <->
  forall k, a < k < a + n -> cmp (at_index data k) (at_index data (k - 1)) = true.
Proof.
  rewrite every_i_iff. split.
  - intros H k Hk. specialize (H (k - a) (at_index data k)).
    rewrite points_lookup, bool_decide_eq_true_2 in H by lia.
    replace (a + (k - a)) with k in H by lia. specialize (H eq_refl).
    destruct (Nat.eqb_spec (k - a) 0) as [?|_]; [lia|]. simpl in H.
    unfold at_index at 2 in H.
    rewrite points_lookup, bool_decide_eq_true_2 in H by lia.
    simpl in H. by replace (a + (k - a - 1)) with (k - 1) in H by lia.
  - intros H j v Hj. rewrite points_lookup in Hj.
    case_bool_decide as Hn; [|done]. injection Hj as <-.
    destruct (Nat.eqb_spec j 0) as [?|Hj0]; [done|]. simpl.
    unfold at_index at 2.
    rewrite points_lookup, bool_decide_eq_true_2 by lia. simpl.
    replace (a + (j - 1)) with (a + j - 1) by lia. apply H. lia.
Qed.

Lemma count_length (p : float -> bool) (l : list float) :
  count p l <= length l.
Proof. unfold count. apply List.filter_length_le. Qed.

Lemma count_full (p : float -> bool) (l : list float) :
  length l <= count p l <-> forall j x, l !! j = Some x -> p x = true.
Proof.
  unfold count. induction l as [|x l IH]; simpl.
  - split; [|lia]. intros _ j y Hj. by rewrite lookup_nil in Hj.
  - destruct (p x) eqn:Hp; simpl.
    + split.
      * intros H [|j] y Hj; simpl in Hj; [congruence|].
        apply (proj1 IH) with j; [lia|done].
      * intros H. enough (length l <= length (List.filter p l)) by lia.
        apply IH. intros j y Hj. by apply (H (S j)).
    + split.
      * pose proof (List.filter_length_le p l). lia.
      * intros H. specialize (H 0 x eq_refl). congruence.
Qed.

(** All but at most one point pass [p]: of any two points, one passes. *)
Lemma count_all_but_one (p : float -> bool) (l : list float) :
  length l <= count p l + 1 <->
  forall j k x y, j < k -> l !! j = Some x -> l !! k = Some y ->
    p x = true \/ p y = true.
Proof.
  induction l as [|x l IH].
  - simpl. split; [|lia]. intros _ j k a b _ Hj. by rewrite lookup_nil in Hj.
  - assert (Hc : count p (x :: l) = if p x then S (count p l) else count p l).
    { unfold count. simpl. by destruct (p x). }
    rewrite Hc. simpl. destruct (p x) eqn:Hp.
    + split.
      * intros H [|j] [|k] a b Hjk Hj Hk; simpl in *; try lia.
        -- left. congruence.
        -- apply (proj1 IH) with j k; [lia|lia|done|done].
      * intros H. enough (length l <= count p l + 1) by lia.
        apply IH. intros j k a b Hjk Hj Hk.
        apply (H (S j) (S k)); [lia|done|done].
    + split.
      * intros H [|j] [|k] a b Hjk Hj Hk; simpl in *; try lia.
        -- right. apply (proj1 (count_full p l)) with k; [lia|done].
        -- right. apply (proj1 (count_full p l)) with k; [lia|done].
      * intros H. enough (length l <= count p l) by lia.
        apply count_full. intros j y Hj.
        destruct (H 0 (S j) x y) as [?|?]; try done; [lia|congruence].
Qed.

Lemma count_points (p : float -> bool) data a n :
  S n <= count p (map (at_index data) (seq a (S n))) + 1 <->
  forall j k, a <= j -> j < k -> k <= a + n ->
    p (at_index data j) = true \/ p (at_index data k) = true.
Proof.
  pose proof (count_all_but_one p (map (at_index data) (seq a (S n)))) as H.
  rewrite length_map, length_seq in H. rewrite H. split.
  - intros Hp j k Hj Hjk Hk.
    apply (Hp (j - a) (k - a)); [lia| |]; rewrite points_lookup,
      bool_decide_eq_true_2 by lia; f_equal; f_equal; lia.
  - intros Hp j k x y Hjk Hj Hk. rewrite points_lookup in Hj, Hk.
    repeat case_bool_decide; try done.
    injection Hj as <-. injection Hk as <-. apply Hp; lia.
Qed.

End RuleWindows.

(* ===================================================================== *)
(** ** More properties of the rule engine                                 *)
(* ===================================================================== *)

Section RuleEngineMore.

Import Nelson.
#[local] Open Scope nat_scope.

Implicit Types (data pre post : list float) (mean sd x : float) (i k r : nat).

Lemma slice_app_l data post a b :
  b <= length data -> slice a b (data ++ post) = slice a b data.
Proof.
  intros Hb. unfold slice. destruct (decide (a <= length data)) as [Ha|Ha].
  - rewrite drop_app_le by done.
    rewrite take_app_le by (rewrite length_drop; lia). done.
  - by replace (b - a) with 0 by lia.
Qed.

Lemma rule_holds_app_l data post mean sd i r :
  i < length data ->
  rule_holds (data ++ post) mean sd i r = rule_holds data mean sd i r.
Proof.
  intros Hi. unfold rule_holds, at_index.
  rewrite !slice_app_l by lia. by rewrite lookup_app_l.
Qed.

(** X3. No lookahead: the rules listed for a point do not depend on the
    points after it. *)
Theorem no_lookahead pre x post mean sd :
  checkNelsonRules (pre ++ x :: post) mean sd !! length pre
  = checkNelsonRules (pre ++ [x]) mean sd !! length pre.
Proof.
  rewrite !check_lookup.
  rewrite !bool_decide_eq_true_2 by (rewrite length_app; simpl; lia).
  f_equal. apply List.filter_ext. intros r.
  rewrite (cons_middle x pre post), app_assoc.
  apply rule_holds_app_l. rewrite length_app. simpl. lia.
Qed.

(** X4. Rule 2 is listed at index [i] exactly when [i] is at least 8 and
    the nine points ending at [i] are all above the mean, or all below. *)
Theorem rule2_flagged_iff data mean sd i :
  flagged data mean sd i 2 <->
  8 <= i < length data
  /\ ((forall k, i - 8 <= k <= i -> JS.gt (at_index data k) mean = true)
      \/ (forall k, i - 8 <= k <= i -> JS.lt (at_index data k) mean = true)).
Proof.
  rewrite flagged_iff. unfold rule_holds, rule2_test. split.
  - intros (Hi & _ & [Hb H]%andb_true_iff). apply Nat.leb_le in Hb.
    split; [lia|]. rewrite window_points in H by lia.
    apply orb_true_iff in H as [H|H]; [left|right];
      intros k Hk; apply (proj1 (every_points _ _ _ _) H); lia.
  - intros (Hi & H). repeat split; try lia.
    apply andb_true_iff. split; [apply Nat.leb_le; lia|].
    rewrite window_points by lia. apply orb_true_iff.
    destruct H as [H|H]; [left|right];
      apply every_points; intros k Hk; apply H; lia.
Qed.

(** X5. Rule 3 is listed at index [i] exactly when [i] is at least 5 and
    each of the six points ending at [i] is above the point before it, or
    each is below the point before it. *)
Theorem rule3_flagged_iff data mean sd i :
  flagged data mean sd i 3 <->
  5 <= i < length data
  /\ ((forall k, i - 5 < k <= i ->
         JS.gt (at_index data k) (at_index data (k - 1)) = true)
      \/ (forall k, i - 5 < k <= i ->
            JS.lt (at_index data k) (at_index data (k - 1)) = true)).
Proof.
  rewrite flagged_iff. unfold rule_holds, rule3_test. split.
  - intros (Hi & _ & [Hb H]%andb_true_iff). apply Nat.leb_le in Hb.
    split; [lia|]. rewrite window_points in H by lia.
    apply orb_true_iff in H as [H|H]; [left|right];
      intros k Hk; apply (proj1 (every_i_steps _ _ _ _) H); lia.
  - intros (Hi & H). repeat split; try lia.
    apply andb_true_iff. split; [apply Nat.leb_le; lia|].
    rewrite window_points by lia. apply orb_true_iff.
    destruct H as [H|H]; [left|right];
      apply every_i_steps; intros k Hk; apply H; lia.
Qed.

(** X6. Rules 5 and 6 are listed at index [i] exactly when [i] is at least
    2 (respectively 4) and at most one of the three (respectively five)
    points ending at [i] is not beyond two (respectively one) standard
    deviations from the mean: of any two points of the window, one is
    beyond. *)
Theorem rules_5_6_flagged_iff data mean sd i :
  (flagged data mean sd i 5 <->
   2 <= i < length data
   /\ forall j k, i - 2 <= j -> j < k -> k <= i ->
        JS.gt (PrimFloat.abs (at_index data j - mean)) (2 * sd) = true
        \/ JS.gt (PrimFloat.abs (at_index data k - mean)) (2 * sd) = true)
  /\ (flagged data mean sd i 6 <->
      4 <= i < length data
      /\ forall j k, i - 4 <= j -> j < k -> k <= i ->
           JS.gt (PrimFloat.abs (at_index data j - mean)) sd = true
           \/ JS.gt (PrimFloat.abs (at_index data k - mean)) sd = true).
Proof.
  split; rewrite flagged_iff; unfold rule_holds, rule5_test, rule6_test; split.
  - intros (Hi & _ & [Hb H]%andb_true_iff). apply Nat.leb_le in Hb.
    split; [lia|]. rewrite window_points in H by lia. apply Nat.leb_le in H.
    intros j k Hj Hjk Hk.
    apply (proj1 (count_points
                    (fun v => JS.gt (PrimFloat.abs (v - mean)) (2 * sd))
                    data (i - 2) 2)); lia.
  - intros (Hi & H). repeat split; try lia.
    apply andb_true_iff. split; [apply Nat.leb_le; lia|].
    rewrite window_points by lia. apply Nat.leb_le.
    enough (3 <= count (fun v => JS.gt (PrimFloat.abs (v - mean)) (2 * sd))
                   (map (at_index data) (seq (i - 2) 3)) + 1) by lia.
    apply count_points. intros j k Hj Hjk Hk. apply H; lia.
  - intros (Hi & _ & [Hb H]%andb_true_iff). apply Nat.leb_le in Hb.
    split; [lia|]. rewrite window_points in H by lia. apply Nat.leb_le in H.
    intros j k Hj Hjk Hk.
    apply (proj1 (count_points
                    (fun v => JS.gt (PrimFloat.abs (v - mean)) sd)
                    data (i - 4) 4)); lia.
  - intros (Hi & H). repeat split; try lia.
    apply andb_true_iff. split; [apply Nat.leb_le; lia|].
    rewrite window_points by lia. apply Nat.leb_le.
    enough (5 <= count (fun v => JS.gt (PrimFloat.abs (v - mean)) sd)
                   (map (at_index data) (seq (i - 4) 5)) + 1) by lia.
    apply count_points. intros j k Hj Hjk Hk. apply H; lia.
Qed.

(** X7. Rule 7 is listed at index [i] exactly when [i] is at least 14 and
    all fifteen points ending at [i] are within one standard deviation of
    the mean; rule 8 exactly when [i] is at least 7 and all eight points
    ending at [i] are beyond one standard deviation. *)
Theorem rules_7_8_flagged_iff data mean sd i :
  (flagged data mean sd i 7 <->
   14 <= i < length data
   /\ forall k, i - 14 <= k <= i ->
        JS.lt (PrimFloat.abs (at_index data k - mean)) sd = true)
  /\ (flagged data mean sd i 8 <->
      7 <= i < length data
      /\ forall k, i - 7 <= k <= i ->
           JS.gt (PrimFloat.abs (at_index data k - mean)) sd = true).
Proof.
  split; rewrite flagged_iff; unfold rule_holds, rule7_test, rule8_test; split.
  - intros (Hi & _ & [Hb H]%andb_true_iff). apply Nat.leb_le in Hb.
    split; [lia|]. rewrite window_points in H by lia.
    intros k Hk.
    apply (proj1 (every_points
                    (fun v => JS.lt (PrimFloat.abs (v - mean)) sd) _ _ _) H).
    lia.
  - intros (Hi & H). repeat split; try lia.
    apply andb_true_iff. split; [apply Nat.leb_le; lia|].
    rewrite window_points by lia.
    apply (proj2 (every_points
                    (fun v => JS.lt (PrimFloat.abs (v - mean)) sd) _ _ _)).
    intros k Hk. apply H. lia.
  - intros (Hi & _ & [Hb H]%andb_true_iff). apply Nat.leb_le in Hb.
    split; [lia|]. rewrite window_points in H by lia.
    intros k Hk.
    apply (proj1 (every_points
                    (fun v => JS.gt (PrimFloat.abs (v - mean)) sd) _ _ _) H).
    lia.
  - intros (Hi & H). repeat split; try lia.
    apply andb_true_iff. split; [apply Nat.leb_le; lia|].
    rewrite window_points by lia.
    apply (proj2 (every_points
                    (fun v => JS.gt (PrimFloat.abs (v - mean)) sd) _ _ _)).
    intros k Hk. apply H. lia.
Qed.

(** X8. Whenever rule 8 is listed for a point, rule 6 is listed for it as
    well: eight points beyond one standard deviation include four of the
    last five. *)
Theorem rule8_implies_rule6 data mean sd i :
  flagged data mean sd i 8 -> flagged data mean sd i 6.
Proof.
  rewrite !flagged_iff. unfold rule_holds, rule8_test, rule6_test.
  intros (Hi & _ & [Hb H]%andb_true_iff). apply Nat.leb_le in Hb.
  repeat split; try lia. apply andb_true_iff.
  split; [apply Nat.leb_le; lia|].
  rewrite window_points in H by lia. rewrite window_points by lia.
  apply Nat.leb_le.
  enough (5 <= count (fun v => JS.gt (PrimFloat.abs (v - mean)) sd)
                 (map (at_index data) (seq (i - 4) 5)) + 1) by lia.
  apply count_points. intros j k Hj Hjk Hk. left.
  apply (proj1 (every_points
                  (fun v => JS.gt (PrimFloat.abs (v - mean)) sd) _ _ _) H).
  lia.
Qed.

Lemma rule8_implies_rule6_witness :
  flagged [1; 2; 3; 4; 5; 6; 7; 8; 9]%float 100 1 8 8
  /\ flagged [1; 2; 3; 4; 5; 6; 7; 8; 9]%float 100 1 8 6.
Proof.
  assert (H : flagged [1; 2; 3; 4; 5; 6; 7; 8; 9]%float 100 1 8 8).
  { apply flagged_iff. repeat split; simpl; lia || reflexivity. }
  split; [exact H|].
  exact (rule8_implies_rule6 [1; 2; 3; 4; 5; 6; 7; 8; 9]%float 100 1 8 H).
Defined.

(** X9. Rule 7 excludes rules 6 and 8: a point listed for fifteen points
    within one standard deviation is never also listed for points beyond
    one standard deviation. *)
Theorem rule7_excludes_6_and_8 data mean sd i :
  flagged data mean sd i 7 ->
  ~ flagged data mean sd i 6 /\ ~ flagged data mean sd i 8.
Proof.
  rewrite !flagged_iff. unfold rule_holds, rule7_test, rule6_test, rule8_test.
  intros (Hi & _ & [Hb H]%andb_true_iff). apply Nat.leb_le in Hb.
  rewrite window_points in H by lia.
  assert (Hin : forall k, i - 14 <= k <= i ->
            JS.gt (PrimFloat.abs (at_index data k - mean)) sd = false).
  { intros k Hk. unfold JS.gt. apply ltb_asym.
    apply (proj1 (every_points
                    (fun v => JS.lt (PrimFloat.abs (v - mean)) sd) _ _ _) H).
    lia. }
  split.
  - intros (_ & _ & [_ H6]%andb_true_iff).
    rewrite window_points in H6 by lia. apply Nat.leb_le in H6.
    assert (Hpair :
      JS.gt (PrimFloat.abs (at_index data (i - 1) - mean)) sd = true
      \/ JS.gt (PrimFloat.abs (at_index data i - mean)) sd = true).
    { apply (proj1 (count_points
                      (fun v => JS.gt (PrimFloat.abs (v - mean)) sd)
                      data (i - 4) 4)); lia. }
    rewrite !Hin in Hpair by lia. by destruct Hpair.
  - intros (_ & _ & [_ H8]%andb_true_iff).
    rewrite window_points in H8 by lia.
    pose proof (proj1 (every_points
                         (fun v => JS.gt (PrimFloat.abs (v - mean)) sd)
                         _ _ _) H8 i ltac:(lia)) as Hc.
    cbv beta in Hc. rewrite Hin in Hc by lia. done.
Qed.

Lemma rule7_excludes_6_and_8_witness :
  flagged Inputs.steady 5 1 14 7
  /\ ~ flagged Inputs.steady 5 1 14 6 /\ ~ flagged Inputs.steady 5 1 14 8.
Proof.
  assert (H : flagged Inputs.steady 5 1 14 7).
  { apply flagged_iff. repeat split; simpl; lia || reflexivity. }
  split; [exact H|].
  exact (rule7_excludes_6_and_8 Inputs.steady 5 1 14 H).
Defined.

Lemma every_nowhere (p : float -> bool) (l : list float) :
  (forall v, p v = false) -> l <> [] -> every p l = false.
Proof. intros Hp Hl. destruct l as [|v l]; [done|]. simpl. by rewrite Hp. Qed.

Lemma count_nowhere (p : float -> bool) (l : list float) :
  (forall v, p v = false) -> count p l = 0.
Proof.
  intros Hp. unfold count. induction l as [|v l IH]; simpl; [done|].
  by rewrite Hp.
Qed.

Lemma window_not_empty data i w :
  w <= i -> i < length data -> slice (i - w) (i + 1) data <> [].
Proof.
  intros Hw Hi Hnil. pose proof (slice_window_length data i w Hw Hi) as Hl.
  by rewrite Hnil in Hl.
Qed.

(** With a NaN deviation no comparison against a multiple of it holds. *)
Lemma rule_holds_nan_sd data mean sd i r :
  is_nan sd = true -> i < length data ->
  rule_holds data mean sd i r = true -> r = 2 \/ r = 3 \/ r = 4.
Proof.
  intros Hsd Hi H.
  assert (Hgt : forall c v, JS.gt (PrimFloat.abs (v - mean)) (c * sd) = false)
    by (intros; apply ltb_nan_l; by apply mul_nan_r).
  assert (Hgt1 : forall v, JS.gt (PrimFloat.abs (v - mean)) sd = false)
    by (intros; by apply ltb_nan_l).
  assert (Hlt1 : forall v, JS.lt (PrimFloat.abs (v - mean)) sd = false)
    by (intros; by apply ltb_nan_r).
  destruct r as [|[|[|[|[|[|[|[|[|r]]]]]]]]]; unfold rule_holds in H;
    try done; try lia; exfalso.
  - unfold rule1_test in H. by rewrite Hgt in H.
  - apply andb_true_iff in H as [_ H]. unfold rule5_test in H.
    by rewrite count_nowhere in H by apply Hgt.
  - apply andb_true_iff in H as [_ H]. unfold rule6_test in H.
    by rewrite count_nowhere in H by apply Hgt1.
  - apply andb_true_iff in H as [Hb%Nat.leb_le H]. unfold rule7_test in H.
    rewrite every_nowhere in H; [done|apply Hlt1|by apply window_not_empty].
  - apply andb_true_iff in H as [Hb%Nat.leb_le H]. unfold rule8_test in H.
    rewrite every_nowhere in H; [done|apply Hgt1|by apply window_not_empty].
Qed.

(** With a NaN mean no comparison against it, or of a distance from it,
    holds. *)
Lemma rule_holds_nan_mean data mean sd i r :
  is_nan mean = true -> i < length data ->
  rule_holds data mean sd i r = true -> r = 3 \/ r = 4.
Proof.
  intros Hm Hi H.
  assert (Hgt : forall y v, JS.gt (PrimFloat.abs (v - mean)) y = false)
    by (intros; apply ltb_nan_r, abs_nan; by apply sub_nan_r).
  assert (Hlt : forall y v, JS.lt (PrimFloat.abs (v - mean)) y = false)
    by (intros; apply ltb_nan_l, abs_nan; by apply sub_nan_r).
  destruct r as [|[|[|[|[|[|[|[|[|r]]]]]]]]]; unfold rule_holds in H;
    try done; try lia; exfalso.
  - unfold rule1_test in H. by rewrite Hgt in H.
  - apply andb_true_iff in H as [Hb%Nat.leb_le H]. unfold rule2_test in H.
    rewrite !every_nowhere in H; try done; try (by apply window_not_empty).
    + intros v. by apply ltb_nan_r.
    + intros v. by apply ltb_nan_l.
  - apply andb_true_iff in H as [_ H]. unfold rule5_test in H.
    by rewrite count_nowhere in H by (intros; apply Hgt).
  - apply andb_true_iff in H as [_ H]. unfold rule6_test in H.
    by rewrite count_nowhere in H by (intros; apply Hgt).
  - apply andb_true_iff in H as [Hb%Nat.leb_le H]. unfold rule7_test in H.
    rewrite every_nowhere in H;
      [done|intros; apply Hlt|by apply window_not_empty].
  - apply andb_true_iff in H as [Hb%Nat.leb_le H]. unfold rule8_test in H.
    rewrite every_nowhere in H;
      [done|intros; apply Hgt|by apply window_not_empty].
Qed.

(** X10. NaN statistics silence the rules that compare against them: with
    a NaN standard deviation only rules 2, 3 and 4 can be listed, and with
    a NaN mean only rules 3 and 4. *)
Theorem nan_stats_silence_rules data mean sd i r :
  flagged data mean sd i r ->
  (is_nan sd = true -> r = 2 \/ r = 3 \/ r = 4)
  /\ (is_nan mean = true -> r = 3 \/ r = 4).
Proof.
  intros (Hi & _ & H)%flagged_iff. split; intros Hn.
  - by apply (rule_holds_nan_sd data mean sd i r).
  - by apply (rule_holds_nan_mean data mean sd i r).
Qed.

Lemma nan_stats_silence_rules_witness :
  flagged Inputs.all_infinite infinity nan 13 4
  /\ (is_nan nan = true -> 4 = 2 \/ 4 = 3 \/ 4 = 4)
  /\ (is_nan infinity = true -> 4 = 3 \/ 4 = 4).
Proof.
  assert (H : flagged Inputs.all_infinite infinity nan 13 4).
  { apply flagged_iff. repeat split; simpl; lia || reflexivity. }
  split; [exact H|].
  exact (nan_stats_silence_rules Inputs.all_infinite infinity nan 13 4 H).
Defined.

(** Rules 3 and 4 look at the readings only: whether they are listed for
    a point does not depend on the mean or the standard deviation handed to
    the engine. *)
Lemma trend_rules_ignore_stats data mean sd mean' sd' i :
  (flagged data mean sd i 3 <-> flagged data mean' sd' i 3)
  /\ (flagged data mean sd i 4 <-> flagged data mean' sd' i 4).
Proof. by rewrite !flagged_iff. Qed.

End RuleEngineMore.

(* ===================================================================== *)
(** ** Properties of the chart data                                       *)
(* ===================================================================== *)

Section ChartProperties.

Import Backend Chart.

Implicit Types (samples : series) (k : nat).

Lemma weightViolations_length samples :
  length (weightViolations samples) = length samples.
Proof.
  unfold weightViolations. by rewrite checkNelsonRules_length, length_map.
Qed.

Lemma hardnessViolations_length samples :
  length (hardnessViolations samples) = length samples.
Proof.
  unfold hardnessViolations. by rewrite checkNelsonRules_length, length_map.
Qed.

(** A [map] whose callback returns at every index of the array returns,
    element by element. *)
Lemma map_throwing_returns {A B : Type} (f : nat -> A -> outcome B)
    (l : list A) : forall o,
  (forall k x, l !! k = Some x -> exists y, f (o + k)%nat x = Returns y) ->
  exists ys, map_throwing f o l = Returns ys
    /\ length ys = length l
    /\ forall k y, ys !! k = Some y ->
         exists x, l !! k = Some x /\ f (o + k)%nat x = Returns y.
Proof.
  induction l as [|x l IH]; intros o Hf; simpl.
  - exists []. split; [done|]. split; [done|].
    intros k y Hk. by rewrite lookup_nil in Hk.
  - destruct (Hf 0%nat x eq_refl) as [y Hy]. rewrite Nat.add_0_r in Hy.
    destruct (IH (S o)) as (ys & Hys & Hlen & Hk).
    { intros k x' Hx'. replace (S o + k)%nat with (o + S k)%nat by lia.
      by apply Hf. }
    exists (y :: ys). rewrite Hy, Hys. simpl.
    split; [done|]. split; [by f_equal|].
    intros [|k] y' Hy'; simpl in Hy'.
    + injection Hy' as <-. exists x. by rewrite Nat.add_0_r.
    + destruct (Hk k y' Hy') as (x' & Hx' & Hfx). exists x'.
      split; [done|]. by replace (o + S k)%nat with (S o + k)%nat by lia.
Qed.

Lemma ruleDescriptions_defined (r : nat) :
  (1 <= r <= 8)%nat -> is_Some (ruleDescriptions !! r).
Proof.
  intros Hr.
  assert (Hc : (r = 1 \/ r = 2 \/ r = 3 \/ r = 4 \/ r = 5 \/ r = 6
                \/ r = 7 \/ r = 8)%nat) by lia.
  destruct Hc as [->|[->|[->|[->|[->|[->|[->| ->]]]]]]];
    eexists; vm_compute; reflexivity.
Qed.

Lemma entry_rules_known (data : list float) (mean sd : float) k (vs : list nat) :
  Nelson.checkNelsonRules data mean sd !! k = Some vs ->
  Forall (fun r => (1 <= r <= 8)%nat) vs.
Proof.
  rewrite check_lookup. case_bool_decide; [|done]. intros Hvs.
  assert (Hv : vs = List.filter (Nelson.rule_holds data mean sd k)
                     [1; 2; 3; 4; 5; 6; 7; 8]%nat) by congruence.
  rewrite Hv. apply Forall_forall.
  intros r [Hr _]%list_elem_of_In%filter_In. simpl in Hr. lia.
Qed.

Lemma descriptions_defined (vs : list nat) :
  Forall (fun r => (1 <= r <= 8)%nat) vs ->
  Forall is_Some (map (fun rule => ruleDescriptions !! rule) vs).
Proof.
  induction 1 as [|r vs Hr _ IH]; simpl; constructor; [|done].
  by apply ruleDescriptions_defined.
Qed.

Lemma chart_entry_returns samples k (s : sample) :
  samples !! k = Some s ->
  exists w h,
    weightViolations samples !! k = Some w
    /\ hardnessViolations samples !! k = Some h
    /\ chart_entry (weightViolations samples) (hardnessViolations samples) k s
       = Returns {| point_sample := s;
                    point_weightViolations := w;
                    point_hardnessViolations := h;
                    weightHasViolation := (0 <? length w)%nat;
                    hardnessHasViolation := (0 <? length h)%nat;
                    weightViolationDescriptions :=
                      map (fun rule => ruleDescriptions !! rule) w;
                    hardnessViolationDescriptions :=
                      map (fun rule => ruleDescriptions !! rule) h |}.
Proof.
  intros Hk%lookup_lt_Some.
  destruct (lookup_lt_is_Some_2 (weightViolations samples) k) as [w Hw];
    [by rewrite weightViolations_length|].
  destruct (lookup_lt_is_Some_2 (hardnessViolations samples) k) as [h Hh];
    [by rewrite hardnessViolations_length|].
  exists w, h. unfold chart_entry. by rewrite Hw, Hh.
Qed.

(** [chartData] point by point. *)
Lemma chartData_points samples :
  exists points, chartData samples = Returns points
    /\ length points = length samples
    /\ forall k p, points !! k = Some p ->
         exists s w h,
           samples !! k = Some s
           /\ weightViolations samples !! k = Some w
           /\ hardnessViolations samples !! k = Some h
           /\ p = {| point_sample := s;
                     point_weightViolations := w;
                     point_hardnessViolations := h;
                     weightHasViolation := (0 <? length w)%nat;
                     hardnessHasViolation := (0 <? length h)%nat;
                     weightViolationDescriptions :=
                       map (fun rule => ruleDescriptions !! rule) w;
                     hardnessViolationDescriptions :=
                       map (fun rule => ruleDescriptions !! rule) h |}.
Proof.
  unfold chartData.
  destruct (map_throwing_returns
              (chart_entry (weightViolations samples) (hardnessViolations samples))
              samples 0%nat) as (points & Hp & Hlen & Hk).
  { intros k s Hs. destruct (chart_entry_returns samples k s Hs)
      as (w & h & _ & _ & He). eauto. }
  exists points. split; [done|]. split; [done|]. intros k p H.
  destruct (Hk k p H) as (s & Hs & He). simpl in He.
  destruct (chart_entry_returns samples k s Hs) as (w & h & Hw & Hh & He').
  exists s, w, h. repeat split; try done. congruence.
Qed.

(** X11. Building [chartData] never throws: the violation arrays are as
    long as the sample array, so no entry is missing. There is one chart
    point per sample, in order, carrying that sample and the rules listed
    for it on each channel; and every listed rule has a description. *)
Theorem chartData_returns samples :
  exists points, chartData samples = Returns points
    /\ length points = length samples
    /\ forall k p, points !! k = Some p ->
         samples !! k = Some (point_sample p)
         /\ weightViolations samples !! k = Some (point_weightViolations p)
         /\ hardnessViolations samples !! k = Some (point_hardnessViolations p)
         /\ Forall is_Some (weightViolationDescriptions p)
         /\ Forall is_Some (hardnessViolationDescriptions p)
         /\ length (weightViolationDescriptions p)
            = length (point_weightViolations p)
         /\ length (hardnessViolationDescriptions p)
            = length (point_hardnessViolations p).
Proof.
  destruct (chartData_points samples) as (points & Hp & Hlen & Hk).
  exists points. split; [done|]. split; [done|]. intros k p H.
  destruct (Hk k p H) as (s & w & h & Hs & Hw & Hh & ->). simpl.
  repeat split; try done.
  - apply descriptions_defined. unfold weightViolations in Hw.
    by apply entry_rules_known in Hw.
  - apply descriptions_defined. unfold hardnessViolations in Hh.
    by apply entry_rules_known in Hh.
  - apply length_map.
  - apply length_map.
Qed.

Lemma existsb_lookup (l : Nelson.violations) :
  existsb (fun v => (0 <? length v)%nat) l = true <->
  exists k v, l !! k = Some v /\ (0 <? length v)%nat = true.
Proof.
  rewrite existsb_exists. split.
  - intros (v & [k Hk]%list_elem_of_In%list_elem_of_lookup & Hv). eauto.
  - intros (k & v & Hk & Hv). exists v. split; [|done].
    apply list_elem_of_In, list_elem_of_lookup. eauto.
Qed.

(** X12. The yellow banner and the red chart points agree: the banner is
    shown exactly when some point of [chartData] is marked as having a
    weight or a hardness violation. *)
Theorem banner_iff_marked_point samples :
  banner_shown samples = true <->
  exists points p,
    chartData samples = Returns points /\ p ∈ points
    /\ weightHasViolation p || hardnessHasViolation p = true.
Proof.
  destruct (chartData_points samples) as (points & Hp & Hlen & Hk).
  unfold banner_shown. rewrite orb_true_iff, !existsb_lookup. split.
  - intros H.
    assert (Hex : exists k, (k < length points)%nat
              /\ ((exists v, weightViolations samples !! k = Some v
                              /\ (0 <? length v)%nat = true)
                  \/ (exists v, hardnessViolations samples !! k = Some v
                                /\ (0 <? length v)%nat = true))).
    { destruct H as [(k & v & Hv & Hl)|(k & v & Hv & Hl)]; exists k.
      - apply lookup_lt_Some in Hv as Hlt.
        rewrite weightViolations_length in Hlt. split; [lia|eauto].
      - apply lookup_lt_Some in Hv as Hlt.
        rewrite hardnessViolations_length in Hlt. split; [lia|eauto]. }
    destruct Hex as (k & Hlt & Hv).
    destruct (lookup_lt_is_Some_2 points k Hlt) as [p Hpk].
    exists points, p. split; [done|].
    split; [apply list_elem_of_lookup; eauto|].
    destruct (Hk k p Hpk) as (s & w & h & Hs & Hw & Hh & ->). simpl.
    apply orb_true_iff.
    destruct Hv as [(v & Hv & Hl)|(v & Hv & Hl)]; [left|right]; congruence.
  - intros (points' & p & Hp' & [k Hpk]%list_elem_of_lookup & Hflag).
    assert (points' = points) as -> by congruence.
    destruct (Hk k p Hpk) as (s & w & h & Hs & Hw & Hh & ->). simpl in Hflag.
    apply orb_true_iff in Hflag as [Hf|Hf]; [left|right]; eauto.
Qed.

Lemma channel_silenced (arr : list float) (v : float) k (vs : list nat) (r : nat) :
  v ∈ arr -> is_finite v = false ->
  Nelson.checkNelsonRules arr (Stats.avg (Stats.calcStats arr))
                              (Stats.sd (Stats.calcStats arr)) !! k = Some vs ->
  r ∈ vs -> (r = 2 \/ r = 3 \/ r = 4)%nat.
Proof.
  intros Hv Hf Hvs Hr.
  assert (Hfl : Nelson.flagged arr (Stats.avg (Stats.calcStats arr))
                  (Stats.sd (Stats.calcStats arr)) k r)
    by (exists vs; done).
  apply flagged_iff in Hfl as (Hk & _ & Hh).
  apply (rule_holds_nan_sd arr (Stats.avg (Stats.calcStats arr))
           (Stats.sd (Stats.calcStats arr)) k r); [|done|done].
  apply (stats_nan_from_deviation arr v Hv). by apply deviation_nan.
Qed.

(** X13. A reading that is NaN or infinite silences the sigma rules of its
    channel on the whole chart: with such a weight in the table, no point
    is listed for a weight rule other than 2, 3 and 4; likewise for
    hardness. *)
Theorem bad_reading_silences_channel samples (s : sample) :
  s ∈ samples ->
  (is_finite (weight s) = false ->
   forall k vs r, weightViolations samples !! k = Some vs -> r ∈ vs ->
     (r = 2 \/ r = 3 \/ r = 4)%nat)
  /\ (is_finite (hardness s) = false ->
      forall k vs r, hardnessViolations samples !! k = Some vs -> r ∈ vs ->
        (r = 2 \/ r = 3 \/ r = 4)%nat).
Proof.
  intros Hs. split; intros Hf k vs r Hvs Hr.
  - apply (channel_silenced (map weight samples) (weight s) k vs r);
      try done. apply list_elem_of_In, in_map. by apply list_elem_of_In.
  - apply (channel_silenced (map hardness samples) (hardness s) k vs r);
      try done. apply list_elem_of_In, in_map. by apply list_elem_of_In.
Qed.

Lemma bad_reading_silences_channel_witness :
  (Sample (JS.Num 2) infinity 9.8 ∈ Inputs.overflowed_table
   /\ is_finite (weight (Sample (JS.Num 2) infinity 9.8)) = false)
  /\ forall k vs r,
       weightViolations Inputs.overflowed_table !! k = Some vs -> r ∈ vs ->
       (r = 2 \/ r = 3 \/ r = 4)%nat.
Proof.
  assert (H : Sample (JS.Num 2) infinity 9.8 ∈ Inputs.overflowed_table).
  { apply elem_of_cons. right. apply list_elem_of_here. }
  split; [split; [exact H|reflexivity]|].
  exact (proj1 (bad_reading_silences_channel Inputs.overflowed_table
                  (Sample (JS.Num 2) infinity 9.8) H) eq_refl).
Defined.

End ChartProperties.

(* ===================================================================== *)
(** ** More properties of the table editor                                *)
(* ===================================================================== *)

Section EditorMore.

Import Editor.

Implicit Types (samples : series) (i j : JS.value) (f g : field) (s : sample).

Lemma id_set_field f (v : float) s : id (set_field f v s) = id s.
Proof. by destruct f. Qed.

Lemma set_field_twice f (v w : float) s :
  set_field f w (set_field f v s) = set_field f w s.
Proof. by destruct f. Qed.

Lemma set_field_swap (v w : float) s :
  set_field Hardness w (set_field Weight v s)
  = set_field Weight v (set_field Hardness w s).
Proof. done. Qed.

Lemma strict_eq_nan (v : JS.value) : JS.strict_eq v (JS.Num nan) = false.
Proof. destruct v; try done. simpl. by apply eqb_nan_r. Qed.

Lemma updateSample_cons s samples i f (value : string) :
  updateSample (s :: samples) i f value
  = (if JS.strict_eq (id s) i
     then set_field f (JS.num_or (JS.parseFloat (JS.Str value)) 0) s
     else s) :: updateSample samples i f value.
Proof. reflexivity. Qed.

Lemma deleteSample_cons s samples i :
  deleteSample (s :: samples) i
  = if JS.strict_eq (id s) i then deleteSample samples i
    else s :: deleteSample samples i.
Proof. unfold deleteSample. simpl. by destruct (JS.strict_eq (id s) i). Qed.

(** X14. An id that no sample carries changes nothing: [updateSample] and
    [deleteSample] with such an id return the series as it is. *)
Theorem absent_id_changes_nothing samples i f (value : string) :
  Forall (fun s => JS.strict_eq (id s) i = false) samples ->
  updateSample samples i f value = samples
  /\ deleteSample samples i = samples.
Proof.
  induction 1 as [|s samples Hs _ [IHu IHd]]; [done|].
  by rewrite updateSample_cons, deleteSample_cons, Hs, IHu, IHd.
Qed.

Lemma absent_id_changes_nothing_witness :
  Forall (fun s => JS.strict_eq (id s) (JS.Num 6) = false) dummy_data
  /\ updateSample dummy_data (JS.Num 6) Weight "27.1" = dummy_data
  /\ deleteSample dummy_data (JS.Num 6) = dummy_data.
Proof.
  assert (H : Forall (fun s => JS.strict_eq (id s) (JS.Num 6) = false)
                dummy_data)
    by (repeat constructor).
  split; [exact H|].
  exact (absent_id_changes_nothing dummy_data (JS.Num 6) Weight "27.1" H).
Defined.

(** X15. A NaN id matches no sample, not even one whose own id is NaN:
    such a row can be neither edited nor deleted through its id. *)
Theorem nan_id_never_matches samples f (value : string) :
  updateSample samples (JS.Num nan) f value = samples
  /\ deleteSample samples (JS.Num nan) = samples.
Proof.
  induction samples as [|s samples [IHu IHd]]; [done|].
  by rewrite updateSample_cons, deleteSample_cons, strict_eq_nan, IHu, IHd.
Qed.

(** X16. The last edit of a field wins: editing the same field of the
    same id twice leaves what the second edit alone would leave. *)
Theorem update_overwrites samples i f (v w : string) :
  updateSample (updateSample samples i f v) i f w = updateSample samples i f w.
Proof.
  induction samples as [|s samples IH]; [done|].
  rewrite !updateSample_cons, IH. f_equal.
  destruct (JS.strict_eq (id s) i) eqn:Hs.
  - by rewrite id_set_field, Hs, set_field_twice.
  - by rewrite Hs.
Qed.

(** X17. Edits of the weight and of the hardness do not interfere: for
    any two ids, the two edits give the same series in either order. *)
Theorem updates_of_both_fields_commute samples i j (v w : string) :
  updateSample (updateSample samples i Weight v) j Hardness w
  = updateSample (updateSample samples j Hardness w) i Weight v.
Proof.
  induction samples as [|s samples IH]; [done|].
  rewrite !updateSample_cons, IH. f_equal.
  destruct (JS.strict_eq (id s) i) eqn:Hi, (JS.strict_eq (id s) j) eqn:Hj;
    rewrite ?id_set_field, ?Hi, ?Hj; done.
Qed.

(** X18. Editing never changes which rows a deletion removes: an edit and
    a deletion give the same series in either order; and editing an id
    after deleting it changes nothing more. *)
Theorem update_and_delete_commute samples i j f (v : string) :
  deleteSample (updateSample samples i f v) j
  = updateSample (deleteSample samples j) i f v
  /\ updateSample (deleteSample samples i) i f v = deleteSample samples i.
Proof.
  split.
  - induction samples as [|s samples IH]; [done|].
    rewrite updateSample_cons, !deleteSample_cons.
    destruct (JS.strict_eq (id s) i) eqn:Hi;
      rewrite ?id_set_field; destruct (JS.strict_eq (id s) j) eqn:Hj;
      rewrite ?updateSample_cons, ?Hi, IH; done.
  - induction samples as [|s samples IH]; [done|].
    rewrite deleteSample_cons.
    destruct (JS.strict_eq (id s) i) eqn:Hi; [done|].
    by rewrite updateSample_cons, Hi, IH.
Qed.

(** X19. Deleting is idempotent, and deletions of two ids give the same
    series in either order. *)
Theorem delete_twice samples i j :
  deleteSample (deleteSample samples i) i = deleteSample samples i
  /\ deleteSample (deleteSample samples i) j
     = deleteSample (deleteSample samples j) i.
Proof.
  split.
  - induction samples as [|s samples IH]; [done|].
    rewrite deleteSample_cons.
    destruct (JS.strict_eq (id s) i) eqn:Hi; [done|].
    by rewrite deleteSample_cons, Hi, IH.
  - induction samples as [|s samples IH]; [done|].
    rewrite !deleteSample_cons.
    destruct (JS.strict_eq (id s) i) eqn:Hi, (JS.strict_eq (id s) j) eqn:Hj;
      rewrite ?deleteSample_cons, ?Hi, ?Hj, ?IH; done.
Qed.

(** X20. Ids that count the rows from 1 stay so under [addSample] and
    [updateSample]: if every row's id is its position plus one, the same
    holds after adding a row and after editing any field. *)
Theorem positional_ids_kept samples i f (value : string) :
  (forall k s, samples !! k = Some s -> id s = JS.Num (JS.of_nat (k + 1))) ->
  (forall k s, addSample samples !! k = Some s ->
     id s = JS.Num (JS.of_nat (k + 1)))
  /\ (forall k s, updateSample samples i f value !! k = Some s ->
        id s = JS.Num (JS.of_nat (k + 1))).
Proof.
  intros Hpos. split; intros k s Hs.
  - unfold addSample in Hs. apply lookup_app_Some in Hs as [Hs|[Hk Hs]].
    + by apply Hpos.
    + apply list_lookup_singleton_Some in Hs as [Hk0 <-]. simpl.
      do 2 f_equal. lia.
  - rewrite updateSample_lookup in Hs.
    destruct (samples !! k) as [s0|] eqn:Hk; [|done]. simpl in Hs.
    injection Hs as <-. destruct (JS.strict_eq (id s0) i).
    + rewrite id_set_field. by apply Hpos.
    + by apply Hpos.
Qed.

Lemma positional_ids_kept_witness :
  (forall k s, dummy_data !! k = Some s -> id s = JS.Num (JS.of_nat (k + 1)))
  /\ (forall k s, addSample dummy_data !! k = Some s ->
        id s = JS.Num (JS.of_nat (k + 1))).
Proof.
  assert (H : forall k s, dummy_data !! k = Some s ->
                id s = JS.Num (JS.of_nat (k + 1))).
  { intros [|[|[|[|[|k]]]]] s Hs; simpl in Hs; try done;
      injection Hs as <-; reflexivity. }
  split; [exact H|].
  exact (proj1 (positional_ids_kept dummy_data (JS.Num 1) Weight "27" H)).
Defined.

End EditorMore.

(* ===================================================================== *)
(** ** More properties of the backend                                     *)
(* ===================================================================== *)

Section BackendMore.

Import Backend Session.

Implicit Types (sv : server) (e : event) (events : list event) (r : row).
Implicit Types (c : string) (out : list delivery).

Lemma or_falsy (a b : JS.value) : JS.ToBoolean a = false -> JS.or a b = b.
Proof. unfold JS.or. by intros ->. Qed.

Lemma prop_delete r (key key' : string) :
  prop (delete key r) key'
  = if decide (key = key') then JS.Undefined else prop r key'.
Proof.
  unfold prop. destruct (decide (key = key')) as [->|Hne].
  - by rewrite lookup_delete_eq.
  - by rewrite lookup_delete_ne.
Qed.

(** Dropping a falsy cell does not change what [||] picks. *)
Lemma or_prop_delete r (key key' : string) (b : JS.value) :
  JS.ToBoolean (prop r key) = false ->
  JS.or (prop (delete key r) key') b = JS.or (prop r key') b.
Proof.
  intros Hf. rewrite prop_delete. destruct (decide (key = key')) as [<-|]; [|done].
  by rewrite (or_falsy (prop r key)).
Qed.

Lemma or_or_prop_delete r (key lower upper : string) (b : JS.value) :
  JS.ToBoolean (prop r key) = false ->
  JS.or (JS.or (prop (delete key r) lower) (prop (delete key r) upper)) b
  = JS.or (JS.or (prop r lower) (prop r upper)) b.
Proof.
  intros Hf. rewrite or_prop_delete by done.
  unfold JS.or at 2 4. destruct (JS.ToBoolean (prop r lower)); [done|].
  by apply or_prop_delete.
Qed.

(** X21. A cell that is falsy (0, NaN, an empty text, false) counts as a
    missing cell: the row reads the same with that cell removed. So an id
    of 0 is replaced by the row position, and a weight of 0 under [weight]
    gives way to the [Weight] column. *)
Theorem falsy_cell_is_missing (index : nat) r (key : string) :
  JS.ToBoolean (prop r key) = false ->
  transform index (delete key r) = transform index r.
Proof.
  intros Hf. unfold transform.
  by rewrite or_prop_delete, !or_or_prop_delete.
Qed.

Lemma falsy_cell_is_missing_witness :
  JS.ToBoolean (prop Inputs.zero_id_row "id") = false
  /\ transform 4 (delete "id"%string Inputs.zero_id_row)
     = transform 4 Inputs.zero_id_row.
Proof.
  split; [reflexivity|].
  apply (falsy_cell_is_missing 4 Inputs.zero_id_row "id"). reflexivity.
Defined.

(** A row with id 0 gets its position as id. *)
Example zero_id_row_read :
  transform 4 Inputs.zero_id_row = Sample (JS.Num 5) 27.2 0.
Proof. vm_compute. reflexivity. Qed.

Lemma handle_returns e sv : exists sv' out, handle e sv = Returns (sv', out).
Proof.
  destruct e as [c|c d ok|c|contents|d ok]; simpl; eauto.
  destruct (watching sv); [|eauto].
  destruct (readExcelFile_returns contents) as [d ->]. simpl. eauto.
Qed.

Lemma received_app c out out' :
  received c (out ++ out') = received c out ++ received c out'.
Proof. unfold received. by rewrite List.filter_app, map_app. Qed.

Lemma received_socket_emit c c' (d : series) :
  received c (socket_emit c' d) = if bool_decide (c = c') then [d] else [].
Proof.
  unfold received, socket_emit. simpl.
  destruct (String.eqb_spec c' c) as [->|Hne].
  - by rewrite bool_decide_eq_true_2.
  - by rewrite bool_decide_eq_false_2 by congruence.
Qed.

(** What one handler sends to one socket, and the state it leaves. *)
Lemma handle_cases e sv sv' out :
  handle e sv = Returns (sv', out) ->
  watching sv' = watching sv
  /\ match e with
     | Connection c' =>
         sockets sv' = {[c']} ∪ sockets sv /\ currentData sv' = currentData sv
         /\ forall c, received c out
                      = if bool_decide (c = c') then [currentData sv'] else []
     | UpdateData c' d _ =>
         sockets sv' = sockets sv /\ currentData sv' = d
         /\ forall c, received c out
                      = if bool_decide (c ∈ sockets sv /\ c <> c')
                        then [currentData sv'] else []
     | Disconnect c' =>
         sockets sv' = sockets sv ∖ {[c']} /\ currentData sv' = currentData sv
         /\ forall c, received c out = []
     | FileChanged contents =>
         sockets sv' = sockets sv
         /\ if watching sv
            then readExcelFile contents = Returns (currentData sv')
                 /\ forall c, received c out
                              = if bool_decide (c ∈ sockets sv)
                                then [currentData sv'] else []
            else currentData sv' = currentData sv
                 /\ forall c, received c out = []
     | PostData d _ =>
         sockets sv' = sockets sv /\ currentData sv' = d
         /\ forall c, received c out
                      = if bool_decide (c ∈ sockets sv)
                        then [currentData sv'] else []
     end.
Proof.
  destruct e as [c'|c' d ok|c'|contents|d ok]; simpl.
  - intros [= <- <-]. simpl. repeat split; try done.
    intros c. apply received_socket_emit.
  - intros [= <- <-]. simpl. repeat split; try done.
    intros c. by rewrite received_broadcast_emit.
  - intros [= <- <-]. simpl. done.
  - destruct (watching sv) eqn:Hw.
    + destruct (readExcelFile_returns contents) as [d Hd]. rewrite Hd. simpl.
      intros [= <- <-]. simpl. repeat split; try done.
      intros c. by rewrite received_io_emit.
    + intros [= <- <-]. simpl. done.
  - intros [= <- <-]. simpl. repeat split; try done.
    intros c. by rewrite received_io_emit.
Qed.

(** X22. Whatever the event, its handler returns, and sends each socket
    either nothing or exactly one message; a socket that is sent one is
    connected when the handler ends, and the message is the series the
    server holds at that moment. *)
Theorem handler_sends_current_data e sv :
  exists sv' out, handle e sv = Returns (sv', out)
    /\ forall c, received c out = []
                 \/ (c ∈ sockets sv' /\ received c out = [currentData sv']).
Proof.
  destruct (handle_returns e sv) as (sv' & out & He).
  exists sv', out. split; [done|]. intros c.
  destruct (handle_cases e sv sv' out He) as [Hw Hc].
  destruct e as [c'|c' d ok|c'|contents|d ok].
  - destruct Hc as (Hs & _ & Hr). rewrite Hr, Hs.
    case_bool_decide as Hc'; [right|by left].
    split; [|done]. rewrite elem_of_union, elem_of_singleton. by left.
  - destruct Hc as (Hs & _ & Hr). rewrite Hr, Hs.
    case_bool_decide as Hc'; [right|by left]. by destruct Hc'.
  - destruct Hc as (_ & _ & Hr). left. apply Hr.
  - destruct Hc as (Hs & Hc). destruct (watching sv).
    + destruct Hc as (_ & Hr). rewrite Hr, Hs.
      case_bool_decide; [by right|by left].
    + destruct Hc as (_ & Hr). left. apply Hr.
  - destruct Hc as (Hs & _ & Hr). rewrite Hr, Hs.
    case_bool_decide; [by right|by left].
Qed.

Lemma run_cons e events sv sv1 sv2 out1 out2 :
  handle e sv = Returns (sv1, out1) ->
  run events sv1 = Returns (sv2, out2) ->
  run (e :: events) sv = Returns (sv2, out1 ++ out2).
Proof.
  intros He Hr. simpl. rewrite He. simpl. rewrite Hr. reflexivity.
Qed.

Lemma run_returns events : forall sv,
  exists sv' out, run events sv = Returns (sv', out).
Proof.
  induction events as [|e events IH]; intros sv; [by eexists _, _|].
  destruct (handle_returns e sv) as (sv1 & out1 & He).
  destruct (IH sv1) as (sv2 & out2 & Hr).
  exists sv2, (out1 ++ out2). by apply (run_cons e events sv sv1).
Qed.

(** X23. A socket that is not connected is never sent anything: over any
    run in which it does not connect, it receives no message and stays
    disconnected. *)
Theorem nothing_sent_to_disconnected events c sv :
  c ∉ sockets sv -> Forall (fun e => e <> Connection c) events ->
  exists sv' out, run events sv = Returns (sv', out)
    /\ received c out = [] /\ c ∉ sockets sv'.
Proof.
  intros Hc Hev. revert sv Hc.
  induction Hev as [|e events He Hev IH]; intros sv Hc.
  - exists sv, []. done.
  - destruct (handle_returns e sv) as (sv1 & out1 & Hh).
    destruct (handle_cases e sv sv1 out1 Hh) as [_ Hcase].
    assert (H1 : received c out1 = [] /\ c ∉ sockets sv1).
    { destruct e as [c'|c' d ok|c'|contents|d ok].
      - destruct Hcase as (Hs & _ & Hr). rewrite Hr, Hs.
        rewrite bool_decide_eq_false_2 by congruence.
        split; [done|]. rewrite elem_of_union, elem_of_singleton.
        intros [->|Hin]; [by apply He|by apply Hc].
      - destruct Hcase as (Hs & _ & Hr). rewrite Hr, Hs.
        rewrite bool_decide_eq_false_2 by (intros [Hin _]; by apply Hc). done.
      - destruct Hcase as (Hs & _ & Hr). rewrite Hr, Hs.
        split; [done|]. rewrite elem_of_difference.
        intros [Hin _]. by apply Hc.
      - destruct Hcase as (Hs & Hcase). rewrite Hs.
        destruct (watching sv); destruct Hcase as (_ & Hr); rewrite Hr;
          [by rewrite bool_decide_eq_false_2|done].
      - destruct Hcase as (Hs & _ & Hr). rewrite Hr, Hs.
        by rewrite bool_decide_eq_false_2. }
    destruct H1 as [Hr1 Hc1].
    destruct (IH sv1 Hc1) as (sv2 & out2 & Hrun & Hr2 & Hc2).
    exists sv2, (out1 ++ out2). split; [by apply (run_cons e events sv sv1)|].
    split; [|done]. by rewrite received_app, Hr1, Hr2.
Qed.

Lemma nothing_sent_to_disconnected_witness :
  (("e3"%string ∉ sockets Inputs.fresh_server)
   /\ Forall (fun e => e <> Connection "e3") Inputs.session)
  /\ exists sv' out, run Inputs.session Inputs.fresh_server = Returns (sv', out)
       /\ received "e3" out = [] /\ ("e3"%string ∉ sockets sv').
Proof.
  assert (H : ("e3"%string ∉ sockets Inputs.fresh_server)
              /\ Forall (fun e => e <> Connection "e3") Inputs.session).
  { split; [apply not_elem_of_empty|]. repeat constructor; discriminate. }
  split; [exact H|].
  exact (nothing_sent_to_disconnected Inputs.session "e3" Inputs.fresh_server
           (proj1 H) (proj2 H)).
Defined.

(** Two servers that hold the same series and the same sockets, neither
    with a watcher, answer an event that is not a file change alike. *)
Lemma handle_unwatched e sv sv' sv1 out :
  currentData sv = currentData sv' -> sockets sv = sockets sv' ->
  watching sv = false -> watching sv' = false ->
  handle e sv = Returns (sv1, out) ->
  exists sv1',
    (if is_file_change e then sv1' = sv' /\ out = []
     else handle e sv' = Returns (sv1', out))
    /\ currentData sv1 = currentData sv1' /\ sockets sv1 = sockets sv1'
    /\ watching sv1 = false /\ watching sv1' = false.
Proof.
  intros Hd Hs Hw Hw' He.
  destruct e as [c|c d ok|c|contents|d ok]; simpl in *.
  - injection He as <- <-. rewrite Hd, Hs.
    eexists. split; [reflexivity|]. simpl. done.
  - injection He as <- <-. unfold broadcast_emit. simpl. rewrite Hs.
    eexists. split; [reflexivity|]. simpl. done.
  - injection He as <- <-. rewrite Hd, Hs.
    eexists. split; [reflexivity|]. simpl. done.
  - rewrite Hw in He. injection He as <- <-. exists sv'. simpl. done.
  - injection He as <- <-. unfold io_emit. simpl. rewrite Hs.
    eexists. split; [reflexivity|]. simpl. done.
Qed.

Lemma run_unwatched events : forall sv sv',
  currentData sv = currentData sv' -> sockets sv = sockets sv' ->
  watching sv = false -> watching sv' = false ->
  exists sv1 sv1' out,
    run events sv = Returns (sv1, out)
    /\ run (List.filter (fun e => negb (is_file_change e)) events) sv'
       = Returns (sv1', out)
    /\ currentData sv1 = currentData sv1' /\ sockets sv1 = sockets sv1'.
Proof.
  induction events as [|e events IH]; intros sv sv' Hd Hs Hw Hw'.
  - exists sv, sv', []. done.
  - destruct (handle_returns e sv) as (sv1 & out1 & He).
    destruct (handle_unwatched e sv sv' sv1 out1 Hd Hs Hw Hw' He)
      as (sv1' & He' & Hd1 & Hs1 & Hw1 & Hw1').
    destruct (IH sv1 sv1' Hd1 Hs1 Hw1 Hw1') as (sv2 & sv2' & out2 & Hr & Hr' & H2).
    exists sv2, sv2', (out1 ++ out2).
    split; [by apply (run_cons e events sv sv1)|]. split; [|done].
    simpl. destruct (is_file_change e); simpl.
    + destruct He' as [-> ->]. done.
    + by apply (run_cons e _ sv' sv1').
Qed.

(** X24. The watcher is installed at startup or never: after a start
    without the file, every run sends the same messages and ends with the
    same series and sockets as the run with its file changes left out, even
    once the server has written the file itself. *)
Theorem file_changes_ignored_without_watcher events :
  exists sv0 sv sv' out,
    startup Missing = Returns sv0
    /\ run events sv0 = Returns (sv, out)
    /\ run (List.filter (fun e => negb (is_file_change e)) events) sv0
       = Returns (sv', out)
    /\ currentData sv = currentData sv' /\ sockets sv = sockets sv'.
Proof.
  eexists. 
  destruct (run_unwatched events Inputs.fresh_server Inputs.fresh_server)
    as (sv & sv' & out & Hr & Hr' & H); try done.
  exists sv, sv', out. split; [reflexivity|]. done.
Qed.

Lemma shown_app c out out' :
  shown c (out ++ out')
  = match received c out' with
    | [] => shown c out
    | _ => last (received c out')
    end.
Proof.
  unfold shown. rewrite received_app.
  destruct (received c out') as [|d l] eqn:Hr; [by rewrite app_nil_r|].
  rewrite last_app. destruct (last (d :: l)) eqn:Hl; [done|].
  by apply last_None in Hl.
Qed.

(** One handler keeps every viewer but the newest author up to date. *)
Lemma handle_keeps_viewers e sv sv' out pre (author : option string) :
  handle e sv = Returns (sv', out) ->
  (forall c, c ∈ sockets sv -> author <> Some c ->
     shown c pre = Some (currentData sv)) ->
  forall c, c ∈ sockets sv' ->
    unsent_after (watching sv) author e <> Some c ->
    shown c (pre ++ out) = Some (currentData sv').
Proof.
  intros He Hinv c Hc Ha. rewrite shown_app.
  destruct (handle_cases e sv sv' out He) as [_ Hcase].
  destruct e as [c'|c' d ok|c'|contents|d ok]; simpl in Ha.
  - destruct Hcase as (Hs & Hd & Hr). rewrite Hr.
    case_bool_decide as Hcc; [done|]. rewrite Hd. apply Hinv.
    + rewrite Hs, elem_of_union, elem_of_singleton in Hc.
      by destruct Hc as [?|?].
    + destruct author as [a|]; [|done].
      destruct (String.eqb_spec a c') as [->|?]; [congruence|done].
  - destruct Hcase as (Hs & Hd & Hr). rewrite Hr.
    rewrite bool_decide_eq_true_2; [done|].
    split; [by rewrite <- Hs|congruence].
  - destruct Hcase as (Hs & Hd & Hr). rewrite Hr, Hd. apply Hinv; [|done].
    rewrite Hs, elem_of_difference in Hc. by destruct Hc.
  - destruct Hcase as (Hs & Hcase). destruct (watching sv).
    + destruct Hcase as (_ & Hr). rewrite Hr.
      rewrite bool_decide_eq_true_2; [done|by rewrite <- Hs].
    + destruct Hcase as (Hd & Hr). rewrite Hr, Hd.
      apply Hinv; [by rewrite <- Hs|done].
  - destruct Hcase as (Hs & Hd & Hr). rewrite Hr.
    rewrite bool_decide_eq_true_2; [done|by rewrite <- Hs].
Qed.

Lemma run_keeps_viewers events : forall sv pre (author : option string),
  (forall c, c ∈ sockets sv -> author <> Some c ->
     shown c pre = Some (currentData sv)) ->
  exists sv' out, run events sv = Returns (sv', out)
    /\ forall c, c ∈ sockets sv' ->
         foldl (unsent_after (watching sv)) author events <> Some c ->
         shown c (pre ++ out) = Some (currentData sv').
Proof.
  induction events as [|e events IH]; intros sv pre author Hinv.
  - exists sv, []. split; [done|]. rewrite app_nil_r. apply Hinv.
  - destruct (handle_returns e sv) as (sv1 & out1 & He).
    destruct (handle_cases e sv sv1 out1 He) as [Hw _].
    destruct (IH sv1 (pre ++ out1) (unsent_after (watching sv) author e))
      as (sv2 & out2 & Hr & H2).
    { by apply (handle_keeps_viewers e sv sv1 out1 pre author). }
    exists sv2, (out1 ++ out2).
    split; [by apply (run_cons e events sv sv1)|].
    intros c Hc Ha. rewrite app_assoc. apply H2; [done|].
    simpl in Ha. by rewrite Hw.
Qed.

(** X25. Viewers stay in step with the server. After any run from
    startup, every connected viewer shows the series the server holds (the
    last message it received carries it), except possibly the editor whose
    own update is the newest thing the server holds: that editor was sent
    nothing since. *)
Theorem viewers_show_current_data (f : backing_file) events :
  exists sv0 sv out,
    startup f = Returns sv0
    /\ run events sv0 = Returns (sv, out)
    /\ forall c, c ∈ sockets sv ->
         foldl (unsent_after (existsSync f)) None events <> Some c ->
         shown c out = Some (currentData sv).
Proof.
  destruct (readExcelFile_returns f) as [d Hd].
  exists {| currentData := d; file := f; watching := existsSync f;
            sockets := ∅ |}.
  destruct (run_keeps_viewers events
              {| currentData := d; file := f; watching := existsSync f;
                 sockets := ∅ |} [] None)
    as (sv & out & Hr & H).
  { intros c Hc. by apply not_elem_of_empty in Hc. }
  exists sv, out. split; [|done].
  unfold startup. by rewrite Hd.
Qed.

(** The session of the examples on a server without a watcher, evaluated.
    The second viewer sent the last update and was sent nothing since: it
    still shows the first viewer's series. The first viewer, who has left,
    last saw its greeting; the file change reached nobody. *)
Example session_run :
  (p ← run Inputs.session Inputs.fresh_server;
   Returns (currentData (fst p), elements (sockets (fst p)),
            shown "e1" (snd p), shown "e2" (snd p)))
  = Returns ([Sample (JS.Num 1) 2 2], ["e2"%string],
             Some dummy_data, Some [Sample (JS.Num 1) 1 1]).
Proof. vm_compute. reflexivity. Qed.

End BackendMore.

(* ===================================================================== *)
(** ** Backend: two editors, one after the other                          *)
(* ===================================================================== *)

Section Exchange.

Import Backend Session.

Implicit Types (sv : server) (d : series).

Lemma run_app events1 : forall events2 sv sv1 sv2 out1 out2,
  run events1 sv = Returns (sv1, out1) ->
  run events2 sv1 = Returns (sv2, out2) ->
  run (events1 ++ events2) sv = Returns (sv2, out1 ++ out2).
Proof.
  induction events1 as [|e events1 IH];
    intros events2 sv sv1 sv2 out1 out2 H1 H2.
  - simpl in H1. assert (sv1 = sv /\ out1 = []) as [-> ->]
      by (split; congruence). done.
  - destruct (handle_returns e sv) as (sv0 & out0 & He).
    destruct (run_returns events1 sv0) as (sv0' & out0' & Hr).
    rewrite (run_cons e events1 sv sv0 sv0' out0 out0' He Hr) in H1.
    assert (sv1 = sv0' /\ out1 = out0 ++ out0') as [-> ->]
      by (split; congruence).
    rewrite <- app_assoc.
    apply (run_cons e (events1 ++ events2) sv sv0); [done|].
    by apply (IH events2 sv0 sv0').
Qed.

(** A run of file changes only. With the watcher installed each change
    is read back and sent to every connected socket; without it nothing
    is sent and the series stays. *)
Lemma run_file_changes changes : forall sv,
  exists reads sv' out,
    Forall2 (fun f d => readExcelFile f = Returns d) changes reads
    /\ run (map FileChanged changes) sv = Returns (sv', out)
    /\ sockets sv' = sockets sv /\ watching sv' = watching sv
    /\ if watching sv
       then currentData sv' = default (currentData sv) (last reads)
            /\ forall c, c ∈ sockets sv -> received c out = reads
       else currentData sv' = currentData sv
            /\ forall c, received c out = [].
Proof.
  induction changes as [|contents changes IH]; intros sv.
  - exists [], sv, []. split; [constructor|]. split; [done|].
    split; [done|]. split; [done|]. by destruct (watching sv).
  - destruct (readExcelFile_returns contents) as [d Hd].
    destruct (handle_returns (FileChanged contents) sv) as (sv1 & out1 & He).
    destruct (handle_cases _ _ _ _ He) as [Hw (Hs & Hc)].
    destruct (IH sv1) as (reads & sv2 & out2 & Hreads & Hr & Hs2 & Hw2 & H2).
    rewrite Hw in H2.
    exists (d :: reads), sv2, (out1 ++ out2).
    split; [by constructor|].
    split; [by apply (run_cons _ _ sv sv1)|].
    split; [congruence|]. split; [congruence|].
    destruct (watching sv).
    + destruct Hc as [Hread Hrec]. destruct H2 as [Hd2 Hrec2].
      assert (Hd1 : currentData sv1 = d) by congruence.
      split.
      * rewrite Hd2, Hd1, last_cons. by destruct (last reads).
      * intros c Hin. rewrite received_app, Hrec, Hrec2 by congruence.
        rewrite bool_decide_eq_true_2 by done. simpl. by rewrite Hd1.
    + destruct Hc as [Hd1 Hrec]. destruct H2 as [Hd2 Hrec2].
      split; [congruence|].
      intros c. by rewrite received_app, Hrec, Hrec2.
Qed.

(** C1. Last write wins, and the sender of an update is left out. On any
    server, with or without a watcher, after an update [A] from one
    connected editor and then an update [B] from another, the server holds
    [B]; the handler of the second update sent [B] to the first editor and
    nothing to the second, and the handler of the first sent [A] to the
    second editor and nothing to the first. By contrast the handler of a
    change of the watched file, which exists on a server whose watcher was
    installed at startup, reads the file back and sends the result to
    every connected socket, none excluded. So over the whole exchange,
    with the file changes that arrive after each update (those raised by
    the server's own writes among them): without a watcher the first
    editor receives [B] and nothing else, the second [A] and nothing else,
    and the server ends with [B]; with a watcher each file change adds
    what was read back, for both editors alike, and the server ends with
    what was read last. *)
Theorem last_write_wins sv (e1 e2 : string) (A B : series) (ok1 ok2 : bool)
    (contents : backing_file) (changes1 changes2 : list backing_file) :
  (e1 <> e2 -> e1 ∈ sockets sv -> e2 ∈ sockets sv ->
   (exists sv1 out1 sv2 out2,
       handle (UpdateData e1 A ok1) sv = Returns (sv1, out1)
       /\ handle (UpdateData e2 B ok2) sv1 = Returns (sv2, out2)
       /\ currentData sv2 = B
       /\ received e1 out2 = [B]
       /\ received e1 out1 = []
       /\ received e2 out2 = []
       /\ received e2 out1 = [A])
   /\ (exists read1 read2 sv' out,
         Forall2 (fun f d => readExcelFile f = Returns d) changes1 read1
         /\ Forall2 (fun f d => readExcelFile f = Returns d) changes2 read2
         /\ run (UpdateData e1 A ok1 :: map FileChanged changes1
                 ++ UpdateData e2 B ok2 :: map FileChanged changes2) sv
            = Returns (sv', out)
         /\ if watching sv
            then currentData sv' = default B (last read2)
                 /\ received e1 out = read1 ++ B :: read2
                 /\ received e2 out = A :: read1 ++ read2
            else currentData sv' = B
                 /\ received e1 out = [B]
                 /\ received e2 out = [A]))
  /\ (watching sv = true ->
      exists newData sv' out,
        handle (FileChanged contents) sv = Returns (sv', out)
        /\ readExcelFile contents = Returns newData
        /\ currentData sv' = newData
        /\ forall c, c ∈ sockets sv -> received c out = [newData]).
Proof.
  split.
  - intros Hne H1 H2. split.
    + do 4 eexists. split; [reflexivity|]. split; [reflexivity|].
      rewrite !received_broadcast_emit. simpl.
      split; [done|].
      rewrite (bool_decide_eq_true_2 (e1 ∈ sockets sv /\ e1 <> e2)) by done.
      rewrite (bool_decide_eq_false_2 (e1 ∈ sockets sv /\ e1 <> e1))
        by (intros [_ ?]; done).
      rewrite (bool_decide_eq_false_2 (e2 ∈ sockets sv /\ e2 <> e2))
        by (intros [_ ?]; done).
      rewrite (bool_decide_eq_true_2 (e2 ∈ sockets sv /\ e2 <> e1)) by done.
      done.
    + destruct (handle_returns (UpdateData e1 A ok1) sv) as (sv1 & out1 & He1).
      destruct (handle_cases _ _ _ _ He1) as [Hw1 (Hs1 & Hd1 & Hr1)].
      destruct (run_file_changes changes1 sv1)
        as (read1 & sv1' & outF1 & Hread1 & Hrun1 & Hs1' & Hw1' & HF1).
      destruct (handle_returns (UpdateData e2 B ok2) sv1')
        as (sv2 & out2 & He2).
      destruct (handle_cases _ _ _ _ He2) as [Hw2 (Hs2 & Hd2 & Hr2)].
      destruct (run_file_changes changes2 sv2)
        as (read2 & sv2' & outF2 & Hread2 & Hrun2 & Hs2' & Hw2' & HF2).
      exists read1, read2, sv2', (out1 ++ outF1 ++ out2 ++ outF2).
      split; [done|]. split; [done|]. split.
      { apply (run_cons _ _ sv sv1); [done|].
        apply (run_app _ _ sv1 sv1'); [done|].
        by apply (run_cons _ _ sv1' sv2). }
      assert (Hin1 : forall c, c ∈ sockets sv -> c ∈ sockets sv1')
        by (intros c; congruence).
      assert (Hin2 : forall c, c ∈ sockets sv -> c ∈ sockets sv2)
        by (intros c; congruence).
      rewrite !received_app, !Hr1, !Hr2, Hd1, Hd2.
      rewrite (bool_decide_eq_false_2 (e1 ∈ sockets sv /\ e1 <> e1))
        by (intros [_ ?]; done).
      rewrite (bool_decide_eq_true_2 (e2 ∈ sockets sv /\ e2 <> e1)) by done.
      rewrite (bool_decide_eq_true_2 (e1 ∈ sockets sv1' /\ e1 <> e2))
        by (split; [by apply Hin1|done]).
      rewrite (bool_decide_eq_false_2 (e2 ∈ sockets sv1' /\ e2 <> e2))
        by (intros [_ ?]; done).
      rewrite Hw1 in HF1. rewrite Hw2, Hw1', Hw1 in HF2.
      destruct (watching sv).
      * destruct HF1 as [_ HF1]. destruct HF2 as [Hlast HF2].
        rewrite !HF1, !HF2 by congruence.
        rewrite Hlast, Hd2. done.
      * destruct HF1 as [_ HF1]. destruct HF2 as [Hlast HF2].
        rewrite !HF1, !HF2. rewrite Hlast, Hd2. done.
  - intros Hw. destruct (readExcelFile_returns contents) as [d Hd].
    exists d. unfold handle. rewrite Hw, Hd. simpl.
    do 2 eexists. split; [reflexivity|]. split; [done|]. split; [done|].
    intros c Hc. rewrite received_io_emit. simpl.
    by rewrite bool_decide_eq_true_2.
Qed.

Lemma last_write_wins_witness :
  ("e1" <> "e2" /\ "e1" ∈ sockets Inputs.three_viewers
   /\ "e2" ∈ sockets Inputs.three_viewers
   /\ watching Inputs.three_viewers = true)%string
  /\ (exists sv1 out1 sv2 out2,
        handle (UpdateData "e1" Inputs.series_A true) Inputs.three_viewers
        = Returns (sv1, out1)
        /\ handle (UpdateData "e2" Inputs.series_B false) sv1
           = Returns (sv2, out2)
        /\ currentData sv2 = Inputs.series_B
        /\ received "e1" out2 = [Inputs.series_B]
        /\ received "e1" out1 = []
        /\ received "e2" out2 = []
        /\ received "e2" out1 = [Inputs.series_A])
  /\ (exists newData sv' out,
        handle (FileChanged Missing) Inputs.three_viewers = Returns (sv', out)
        /\ readExcelFile Missing = Returns newData
        /\ currentData sv' = newData
        /\ forall c, c ∈ sockets Inputs.three_viewers ->
             received c out = [newData]).
Proof.
  assert (H : ("e1" <> "e2" /\ "e1" ∈ sockets Inputs.three_viewers
               /\ "e2" ∈ sockets Inputs.three_viewers
               /\ watching Inputs.three_viewers = true)%string).
  { split; [discriminate|].
    split; [|split; [|reflexivity]];
      unfold Inputs.three_viewers; simpl; set_solver. }
  split; [exact H|].
  destruct H as (Hne & H1 & H2 & Hw).
  destruct (last_write_wins Inputs.three_viewers "e1" "e2"
              Inputs.series_A Inputs.series_B true false Missing [] [])
    as [Hexchange Hchange].
  split; [exact (proj1 (Hexchange Hne H1 H2))|exact (Hchange Hw)].
Defined.

(** The server's own write comes back. On a server with the watcher
    installed, the second editor's update is written to the watched file;
    the change handler reads it back and sends it to everyone, the second
    editor included. Without the watcher nothing comes back. *)
Example own_write_comes_back :
  (p1 ← handle (UpdateData "e2" Inputs.series_B true) Inputs.three_viewers;
   p2 ← handle (FileChanged (file (fst p1))) (fst p1);
   Returns (received "e2" (snd p1), received "e2" (snd p2),
            currentData (fst p2)))
  = Returns ([], [Inputs.series_B], Inputs.series_B)
  /\ (p0 ← run [Connection "e1"; Connection "e2"] Inputs.fresh_server;
      p1 ← handle (UpdateData "e2" Inputs.series_B true) (fst p0);
      p2 ← handle (FileChanged (file (fst p1))) (fst p1);
      Returns (received "e2" (snd p1), received "e2" (snd p2),
               currentData (fst p2)))
     = Returns ([], [], Inputs.series_B).
Proof. split; vm_compute; reflexivity. Qed.

End Exchange.
